(** * The chip ledger of the poker bot: application services

    A shallow embedding of [src/application/services.py]: registration and
    login by username, logout, bank and player-to-player chip operations and
    the initiate / confirm / reject transfer workflow.  The services thread
    three repositories (accounts, users, external identities) through every
    call; here they are the fields of one record and the services are written
    in a state monad over it. *)

From stdpp Require Import gmap strings list fin_maps pretty.

Open Scope string_scope.
Open Scope Z_scope.

(** ** Data model *)

(** [domain.models.Account] and [domain.models.User], with the fields the
    services construct them from. *)
Record Account := mkAccount {
  a_id : string;
  username : string;
  password_hash : string
}.

Record User := mkUser {
  u_id : string;
  first_name : string;
  last_name : string;
  balance : Z
}.

(** The dataclasses of [services.py]. *)
Record ExternalContext := mkExternalContext {
  provider : string;
  provider_user_id : string;
  ctx_first_name : string;
  ctx_last_name : string
}.

Record BroadcastMessage := mkBroadcastMessage {
  user_id : string;
  text : string
}.

Record OperationResult := mkOperationResult {
  success : bool;
  error_message : option string;
  broadcasts : list BroadcastMessage
}.

Record InitiateBuyFromResult := mkInitiateBuyFromResult {
  init_success : bool;
  init_error_message : option string;
  source_user : option User;
  candidates : list User
}.

(** ** The repositories *)

(** A row of the user table and of the account table: the record without its
    key. *)
Record UserRow := mkUserRow {
  row_first_name : string;
  row_last_name : string;
  row_balance : Z
}.

Record AccountRow := mkAccountRow {
  row_account_id : string;
  row_password_hash : string
}.

(** Modelled from the spec: the three repositories ([domain.repositories] and
    their SQLite implementations are not part of the sources at hand).
    AccountStore is a mapping from username to account record, UserStore a
    mapping from internal id to user record (display name, integer balance),
    IdentityStore a mapping from (channel, external id) to internal account
    id. *)
Record Repos := mkRepos {
  accounts : gmap string AccountRow;
  users : gmap string UserRow;
  identities : gmap (string * string) string
}.

Definition user_of_row (k : string) (row : UserRow) : User :=
  mkUser k (row_first_name row) (row_last_name row) (row_balance row).

Definition row_of_user (u : User) : UserRow :=
  mkUserRow (first_name u) (last_name u) (balance u).

Definition account_of_row (name : string) (row : AccountRow) : Account :=
  mkAccount (row_account_id row) name (row_password_hash row).

Definition add_delta (delta : Z) (row : UserRow) : UserRow :=
  mkUserRow (row_first_name row) (row_last_name row) (row_balance row + delta).

(** ** The state monad of the services *)

Definition M (A : Type) : Type := Repos → A * Repos.

Definition ret {A} (a : A) : M A := λ r, (a, r).

Definition bind {A B} (m : M A) (k : A → M B) : M B :=
  λ r, let '(a, r') := m r in k a r'.

Notation "x <- m ;; k" := (bind m (λ x, k))
  (at level 100, m at next level, right associativity, only parsing).
Notation "m ;;; k" := (bind m (λ _, k))
  (at level 100, right associativity, only parsing).

(** Modelled from the spec: the operations of the repositories
    ([create], [getByUsername]; [add], [get], [updateBalance], [getAll];
    [set], [clear], lookup of an identity resolved to its User).  A balance
    delta is added to the row of the id and does nothing for an id without a
    row; [set] replaces the link of a pair that has one; [clear] does nothing
    for a pair without a link; the order of [getAll] is the order of the
    map. *)
Definition get_by_username (name : string) : M (option Account) :=
  λ r, (account_of_row name <$> accounts r !! name, r).

Definition create_account (a : Account) : M unit :=
  λ r, (tt, mkRepos (<[username a := mkAccountRow (a_id a) (password_hash a)]> (accounts r))
                    (users r) (identities r)).

Definition add_user (u : User) : M unit :=
  λ r, (tt, mkRepos (accounts r) (<[u_id u := row_of_user u]> (users r)) (identities r)).

Definition get_user (k : string) : M (option User) :=
  λ r, (user_of_row k <$> users r !! k, r).

Definition update_balance (k : string) (delta : Z) : M unit :=
  λ r, (tt, mkRepos (accounts r) (alter (add_delta delta) k (users r)) (identities r)).

Definition get_all_users : M (list User) :=
  λ r, ((λ kv, user_of_row kv.1 kv.2) <$> map_to_list (users r), r).

Definition set_external_identity (p e acct : string) : M unit :=
  λ r, (tt, mkRepos (accounts r) (users r) (<[(p, e) := acct]> (identities r))).

Definition clear_external_identity (p e : string) : M unit :=
  λ r, (tt, mkRepos (accounts r) (users r) (delete (p, e) (identities r))).

Definition find_user_by_external (p e : string) : M (option User) :=
  λ r, (match identities r !! (p, e) with
        | Some k => user_of_row k <$> users r !! k
        | None => None
        end, r).

(** ** The services *)

(** [str(amount)] as an f-string renders it: decimal digits, a leading minus
    sign for a negative number. *)
Definition str_int (z : Z) : string := pretty z.

Definition failure (msg : string) : OperationResult :=
  mkOperationResult false (Some msg) [].

Definition ok (bs : list BroadcastMessage) : OperationResult :=
  mkOperationResult true None bs.

Definition _validate_positive_amount (amount : Z) : option string :=
  if bool_decide (amount ≤ 0) then Some "Amount must be greater than zero."
  else None.

Definition _get_logged_in_user (external_ctx : ExternalContext) : M (option User) :=
  find_user_by_external (provider external_ctx) (provider_user_id external_ctx).

(** [uuid4().hex] is the argument [account_id]: the identifier drawn for a
    new account. *)
Definition register_or_login_user (external_ctx : ExternalContext)
    (name : string) (account_id : string) : M OperationResult :=
  existing <- get_by_username name ;;
  account_id <-
    match existing with
    | None =>
        create_account (mkAccount account_id name "") ;;;
        add_user (mkUser account_id name "" 0) ;;;
        ret account_id
    | Some existing => ret (a_id existing)
    end ;;
  set_external_identity (provider external_ctx) (provider_user_id external_ctx)
                        account_id ;;;
  ret (ok []).

Definition logout_external_identity (external_ctx : ExternalContext)
    : M OperationResult :=
  clear_external_identity (provider external_ctx) (provider_user_id external_ctx) ;;;
  ret (ok []).

Definition buy_chips_from_bank (external_ctx : ExternalContext) (amount : Z)
    : M OperationResult :=
  match _validate_positive_amount amount with
  | Some error => ret (failure error)
  | None =>
      user <- _get_logged_in_user external_ctx ;;
      match user with
      | None => ret (failure "You must /join <username> <password> before buying chips.")
      | Some user =>
          update_balance (u_id user) (- amount) ;;;
          let text := first_name user +:+ " buys " +:+ str_int amount in
          ret (ok [mkBroadcastMessage (u_id user) text])
      end
  end.

Definition sell_chips_to_bank (external_ctx : ExternalContext) (amount : Z)
    : M OperationResult :=
  match _validate_positive_amount amount with
  | Some error => ret (failure error)
  | None =>
      user <- _get_logged_in_user external_ctx ;;
      match user with
      | None => ret (failure "You must /join <username> <password> before selling chips.")
      | Some user =>
          update_balance (u_id user) amount ;;;
          let text := first_name user +:+ " sells " +:+ str_int amount in
          ret (ok [mkBroadcastMessage (u_id user) text])
      end
  end.

Definition buy_chips_from_user (external_ctx : ExternalContext) (amount : Z)
    (counterparty_username : string) : M OperationResult :=
  match _validate_positive_amount amount with
  | Some error => ret (failure error)
  | None =>
      buyer <- _get_logged_in_user external_ctx ;;
      match buyer with
      | None =>
          ret (failure "You must /join <username> <password> before buying from another player.")
      | Some buyer =>
          seller_account <- get_by_username counterparty_username ;;
          match seller_account with
          | None => ret (failure "Seller username not found.")
          | Some seller_account =>
              seller <- get_user (a_id seller_account) ;;
              match seller with
              | None => ret (failure "Seller user not found.")
              | Some seller =>
                  if bool_decide (u_id buyer = u_id seller) then
                    ret (failure "You cannot buy chips from yourself.")
                  else
                    update_balance (u_id buyer) (- amount) ;;;
                    update_balance (u_id seller) amount ;;;
                    let text := first_name buyer +:+ " buys " +:+ str_int amount
                                +:+ " from " +:+ first_name seller in
                    ret (ok [mkBroadcastMessage (u_id buyer) text;
                             mkBroadcastMessage (u_id seller) text])
              end
          end
      end
  end.

Definition sell_chips_to_user (external_ctx : ExternalContext) (amount : Z)
    (counterparty_username : string) : M OperationResult :=
  match _validate_positive_amount amount with
  | Some error => ret (failure error)
  | None =>
      seller <- _get_logged_in_user external_ctx ;;
      match seller with
      | None =>
          ret (failure "You must /join <username> <password> before selling to another player.")
      | Some seller =>
          buyer_account <- get_by_username counterparty_username ;;
          match buyer_account with
          | None => ret (failure "Buyer username not found.")
          | Some buyer_account =>
              buyer <- get_user (a_id buyer_account) ;;
              match buyer with
              | None => ret (failure "Buyer user not found.")
              | Some buyer =>
                  if bool_decide (u_id buyer = u_id seller) then
                    ret (failure "You cannot sell chips to yourself.")
                  else
                    update_balance (u_id buyer) (- amount) ;;;
                    update_balance (u_id seller) amount ;;;
                    let text := first_name seller +:+ " sells " +:+ str_int amount
                                +:+ " to " +:+ first_name buyer in
                    ret (ok [mkBroadcastMessage (u_id seller) text;
                             mkBroadcastMessage (u_id buyer) text])
              end
          end
      end
  end.

Definition initiate_failure (msg : string) : InitiateBuyFromResult :=
  mkInitiateBuyFromResult false (Some msg) None [].

Definition initiate_buy_from_player (external_ctx : ExternalContext) (amount : Z)
    : M InitiateBuyFromResult :=
  match _validate_positive_amount amount with
  | Some error => ret (initiate_failure error)
  | None =>
      source_user <- _get_logged_in_user external_ctx ;;
      match source_user with
      | None =>
          ret (initiate_failure
                 "You must /join <username> <password> before buying from another player.")
      | Some source_user =>
          all_users <- get_all_users ;;
          let candidates := filter (λ u, u_id u ≠ u_id source_user) all_users in
          match candidates with
          | [] =>
              ret (mkInitiateBuyFromResult false
                     (Some "No other players available to buy from.")
                     (Some source_user) [])
          | _ => ret (mkInitiateBuyFromResult true None (Some source_user) candidates)
          end
      end
  end.

Definition confirm_buy_from_player (source_user_id target_user_id : string)
    (amount : Z) : M OperationResult :=
  match _validate_positive_amount amount with
  | Some error => ret (failure error)
  | None =>
      source <- get_user source_user_id ;;
      target <- get_user target_user_id ;;
      match source, target with
      | Some source, Some target =>
          update_balance (u_id source) (- amount) ;;;
          update_balance (u_id target) amount ;;;
          users <- get_all_users ;;
          let text := first_name source +:+ " buys " +:+ str_int amount +:+ " "
                      +:+ "from " +:+ first_name target in
          ret (ok ((λ u, mkBroadcastMessage (u_id u) text) <$> users))
      | _, _ => ret (failure " Buyer or seller not found.")
      end
  end.

(** [reject_buy_from_player] receives no repository. *)
Definition reject_buy_from_player (source_user_id target_user_id : string)
    (amount : Z) : OperationResult :=
  let text := "haha sorry" in
  ok [mkBroadcastMessage source_user_id text].

(** ** Observations on the repositories *)

Definition balance_of (r : Repos) (k : string) : option Z :=
  row_balance <$> users r !! k.

Definition display_name_of (r : Repos) (k : string) : option string :=
  row_first_name <$> users r !! k.

(** The message of the validation failure. *)
Definition validation_error : string := "Amount must be greater than zero.".

(** The repositories after a delta on one row of the user table. *)
Definition with_delta (k : string) (delta : Z) (r : Repos) : Repos :=
  mkRepos (accounts r) (alter (add_delta delta) k (users r)) (identities r).

(** The announcement of a confirmed transfer to every user of [r]. *)
Definition announce (msg : string) (r : Repos) : list BroadcastMessage :=
  (λ u, mkBroadcastMessage (u_id u) msg) <$> (get_all_users r).1.

(** ** The channel adapters

    [src/interfaces/telegram/handlers.py] and
    [src/interfaces/discord/handlers.py]: how the caller's context is built
    from the platform's user, and the two Discord commands that call the chip
    operations.  The text a command sends with [ctx.send] is the value it
    returns here. *)

(** [x or default] on an optional string: [None] and the empty string are
    both falsy. *)
Definition py_or (x : option string) (default : string) : string :=
  match x with
  | Some s => if bool_decide (s = "") then default else s
  | None => default
  end.

Module Telegram.

(** The fields of [message.from_user] that the adapter reads. *)
Record from_user := mk_from_user {
  id : Z;
  first_name : option string;
  last_name : option string
}.

Definition _build_external_context (u : from_user) : ExternalContext :=
  mkExternalContext "telegram" (str_int (id u))
    (py_or (first_name u) "") (py_or (last_name u) "").

End Telegram.

Module Discord.

(** The fields of [discord.abc.User] that the adapter reads. *)
Record user := mk_user {
  id : Z;
  name : string;
  display_name : option string
}.

Definition _build_external_context (u : user) : ExternalContext :=
  let display_name := py_or (display_name u) (name u) in
  mkExternalContext "discord" (str_int (id u)) display_name "".

Definition buy_cmd (author : user) (amount : Z) (username : option string)
    : M string :=
  let external_ctx := _build_external_context author in
  result <-
    match username with
    | None => buy_chips_from_bank external_ctx amount
    | Some username => buy_chips_from_user external_ctx amount username
    end ;;
  if negb (success result) then ret (py_or (error_message result) "Buy failed.")
  else
    ret (match broadcasts result with
         | b :: _ => text b
         | [] => "Buy completed."
         end).

Definition sell_cmd (author : user) (amount : Z) (username : option string)
    : M string :=
  let external_ctx := _build_external_context author in
  result <-
    match username with
    | None => sell_chips_to_bank external_ctx amount
    | Some username => sell_chips_to_user external_ctx amount username
    end ;;
  if negb (success result) then ret (py_or (error_message result) "Sell failed.")
  else
    ret (match broadcasts result with
         | b :: _ => text b
         | [] => "Sell completed."
         end).

End Discord.

(** The chips in play: the sum of the balances of all users. *)
Definition total_balance (r : Repos) : Z :=
  map_fold (λ _ row acc, row_balance row + acc) 0 (users r).

(** The two shapes of the outcome of a chip operation.  A refusal: failure
    with an error message, no notification, the repositories as they were. *)
Definition refused (x : OperationResult * Repos) (r : Repos) : Prop :=
  success x.1 = false
  ∧ (∃ msg, error_message x.1 = Some msg ∧ msg ≠ "")
  ∧ broadcasts x.1 = []
  ∧ x.2 = r.

(** An acceptance: success without error message and with a notification. *)
Definition accepted (x : OperationResult * Repos) : Prop :=
  success x.1 = true ∧ error_message x.1 = None ∧ broadcasts x.1 ≠ [].

(** What no chip operation touches: the accounts, the identity links, the
    set of user ids and the names of the users. *)
Definition same_people (r r' : Repos) : Prop :=
  accounts r' = accounts r
  ∧ identities r' = identities r
  ∧ dom (users r') = dom (users r)
  ∧ ∀ k, display_name_of r' k = display_name_of r k.

(** The scenario of the specification: alice (100) and bob (50) and carol (0),
    alice joined from telegram. *)
Definition demo : Repos :=
  mkRepos
    (<["alice" := mkAccountRow "a1" ""]>
       (<["bob" := mkAccountRow "b2" ""]>
          (<["carol" := mkAccountRow "c3" ""]> ∅)))
    (<["a1" := mkUserRow "alice" "" 100]>
       (<["b2" := mkUserRow "bob" "" 50]>
          (<["c3" := mkUserRow "carol" "" 0]> ∅)))
    (<[("telegram", "7") := "a1"]> ∅).

Definition alice_ctx : ExternalContext := mkExternalContext "telegram" "7" "Al" "".

(** * Properties *)

(** ** Lemmas on the repositories *)

Lemma validate_positive (amount : Z) :
  0 < amount → _validate_positive_amount amount = None.
Proof.
  intros Hpos. unfold _validate_positive_amount.
  rewrite bool_decide_eq_false_2; [done | lia].
Qed.

Lemma validate_nonpositive (amount : Z) :
  amount ≤ 0 → _validate_positive_amount amount = Some validation_error.
Proof.
  intros Hle. unfold _validate_positive_amount.
  by rewrite bool_decide_eq_true_2.
Qed.

(** What it means for [_get_logged_in_user] to answer a user: the identity is
    linked to the user's id and the user table has the user's row there. *)
Lemma logged_in_inv (ctx : ExternalContext) (r : Repos) (U : User) :
  (_get_logged_in_user ctx r).1 = Some U →
  identities r !! (provider ctx, provider_user_id ctx) = Some (u_id U)
  ∧ users r !! u_id U = Some (row_of_user U).
Proof.
  unfold _get_logged_in_user, find_user_by_external. simpl.
  destruct (identities r !! _) as [k|] eqn:Hk; [|done].
  destruct (users r !! k) as [row|] eqn:Hrow; [|done].
  simpl. intros [= <-]. simpl. split; [done|]. by destruct row.
Qed.

Lemma add_delta_add_delta (a b : Z) (row : UserRow) :
  add_delta a (add_delta b row) = add_delta (b + a) row.
Proof. destruct row. unfold add_delta. simpl. f_equal. lia. Qed.

Lemma add_delta_0 (row : UserRow) : add_delta 0 row = row.
Proof. destruct row. unfold add_delta. simpl. f_equal. lia. Qed.

(** A debit followed by the credit of the same amount on the same row gives
    back the table. *)
Lemma alter_debit_credit (k : string) (a : Z) (m : gmap string UserRow) :
  alter (add_delta a) k (alter (add_delta (- a)) k m) = m.
Proof.
  apply map_eq. intros j. destruct (decide (k = j)) as [->|Hne].
  - rewrite !lookup_alter_eq. destruct (m !! j) as [row|]; [|done].
    simpl. rewrite add_delta_add_delta. replace (- a + a) with 0 by lia.
    by rewrite add_delta_0.
  - by rewrite !lookup_alter_ne.
Qed.

Lemma repos_eta (r : Repos) : mkRepos (accounts r) (users r) (identities r) = r.
Proof. by destruct r. Qed.

(** The lookups hand the repositories back untouched. *)
Lemma logged_in_run (ctx : ExternalContext) (r : Repos) (U : User) :
  (_get_logged_in_user ctx r).1 = Some U →
  _get_logged_in_user ctx r = (Some U, r).
Proof.
  unfold _get_logged_in_user, find_user_by_external. simpl. by intros ->.
Qed.

Lemma update_balance_run (k : string) (delta : Z) (r : Repos) :
  update_balance k delta r = (tt, with_delta k delta r).
Proof. reflexivity. Qed.

Lemma balance_with_delta_eq (k : string) (delta : Z) (r : Repos) :
  balance_of (with_delta k delta r) k = (λ b, b + delta) <$> balance_of r k.
Proof.
  unfold balance_of, with_delta. simpl. rewrite lookup_alter_eq.
  by destruct (users r !! k).
Qed.

Lemma users_with_delta_ne (k j : string) (delta : Z) (r : Repos) :
  k ≠ j → users (with_delta k delta r) !! j = users r !! j.
Proof. intros Hne. unfold with_delta. simpl. by rewrite lookup_alter_ne. Qed.

Lemma with_delta_debit_credit (k : string) (a : Z) (r : Repos) :
  with_delta k a (with_delta k (- a) r) = r.
Proof.
  unfold with_delta. simpl. rewrite alter_debit_credit. apply repos_eta.
Qed.

Lemma logged_in_with_delta (ctx : ExternalContext) (delta : Z) (r : Repos) (U : User) :
  (_get_logged_in_user ctx r).1 = Some U →
  (_get_logged_in_user ctx (with_delta (u_id U) delta r)).1
  = Some (mkUser (u_id U) (first_name U) (last_name U) (balance U + delta)).
Proof.
  intros Hin. destruct (logged_in_inv ctx r U Hin) as [Hid Hrow].
  unfold _get_logged_in_user, find_user_by_external, with_delta. simpl.
  by rewrite Hid, lookup_alter_eq, Hrow.
Qed.

(** Symbolic runs of the two bank operations for a logged-in caller. *)
Lemma buy_chips_from_bank_run (ctx : ExternalContext) (a : Z) (r : Repos) (U : User) :
  0 < a →
  (_get_logged_in_user ctx r).1 = Some U →
  buy_chips_from_bank ctx a r
  = (ok [mkBroadcastMessage (u_id U) (first_name U +:+ " buys " +:+ str_int a)],
     with_delta (u_id U) (- a) r).
Proof.
  intros Hpos Hin. unfold buy_chips_from_bank.
  rewrite (validate_positive a Hpos). unfold bind.
  by rewrite (logged_in_run ctx r U Hin).
Qed.

Lemma sell_chips_to_bank_run (ctx : ExternalContext) (a : Z) (r : Repos) (U : User) :
  0 < a →
  (_get_logged_in_user ctx r).1 = Some U →
  sell_chips_to_bank ctx a r
  = (ok [mkBroadcastMessage (u_id U) (first_name U +:+ " sells " +:+ str_int a)],
     with_delta (u_id U) a r).
Proof.
  intros Hpos Hin. unfold sell_chips_to_bank.
  rewrite (validate_positive a Hpos). unfold bind.
  by rewrite (logged_in_run ctx r U Hin).
Qed.

(** ** Validation of the amount *)

(** C3.  Every chip operation (buy from bank, sell to bank, buy from player,
    sell to player, initiate, confirm) called with an amount that is zero or
    negative returns the validation failure, hands back the repositories as
    it received them (no balance and no identity link is touched) and carries
    no notification; so do in particular [buy_chips_from_bank] at 0 and at
    -5.  The result of [initiate_buy_from_player] has no field for
    notifications. *)
Theorem nonpositive_amount_rejected (ctx : ExternalContext)
    (name source target : string) (amount : Z) (r : Repos) :
  amount ≤ 0 →
  buy_chips_from_bank ctx amount r = (mkOperationResult false (Some validation_error) [], r)
  ∧ sell_chips_to_bank ctx amount r = (mkOperationResult false (Some validation_error) [], r)
  ∧ buy_chips_from_user ctx amount name r
    = (mkOperationResult false (Some validation_error) [], r)
  ∧ sell_chips_to_user ctx amount name r
    = (mkOperationResult false (Some validation_error) [], r)
  ∧ initiate_buy_from_player ctx amount r
    = (mkInitiateBuyFromResult false (Some validation_error) None [], r)
  ∧ confirm_buy_from_player source target amount r
    = (mkOperationResult false (Some validation_error) [], r)
  ∧ buy_chips_from_bank ctx 0 r = (mkOperationResult false (Some validation_error) [], r)
  ∧ buy_chips_from_bank ctx (-5) r
    = (mkOperationResult false (Some validation_error) [], r).
Proof.
  intros Hle.
  unfold buy_chips_from_bank, sell_chips_to_bank, buy_chips_from_user,
    sell_chips_to_user, initiate_buy_from_player, confirm_buy_from_player.
  rewrite (validate_nonpositive amount Hle).
  repeat split; reflexivity.
Qed.

Lemma nonpositive_amount_rejected_witness :
  buy_chips_from_bank alice_ctx (-5) demo
  = (mkOperationResult false (Some validation_error) [], demo).
Proof.
  refine (proj1 (nonpositive_amount_rejected alice_ctx "bob" "a1" "b2" (-5) demo _)).
  lia.
Defined.

(** ** Bank operations *)

(** C4.  For a caller logged in as [U] and a positive amount [a]:
    [buy_chips_from_bank] succeeds, lowers the balance of [U] by exactly [a],
    leaves every other user, the accounts and the identity links alone, and
    returns the single notification "<name> buys <a>" addressed to [U];
    [sell_chips_to_bank] does the same with the balance raised by [a] and the
    text "<name> sells <a>"; and selling [a] right after buying [a] succeeds
    and gives back the repositories as they were before the purchase. *)
Theorem bank_buy_then_sell (ctx : ExternalContext) (a : Z) (r : Repos) (U : User) :
  0 < a →
  (_get_logged_in_user ctx r).1 = Some U →
  balance_of r (u_id U) = Some (balance U)
  ∧ (buy_chips_from_bank ctx a r).1 = mkOperationResult true None
      [mkBroadcastMessage (u_id U) (first_name U +:+ " buys " +:+ str_int a)]
  ∧ balance_of (buy_chips_from_bank ctx a r).2 (u_id U) = Some (balance U - a)
  ∧ (∀ k, k ≠ u_id U → users (buy_chips_from_bank ctx a r).2 !! k = users r !! k)
  ∧ accounts (buy_chips_from_bank ctx a r).2 = accounts r
  ∧ identities (buy_chips_from_bank ctx a r).2 = identities r
  ∧ (sell_chips_to_bank ctx a r).1 = mkOperationResult true None
      [mkBroadcastMessage (u_id U) (first_name U +:+ " sells " +:+ str_int a)]
  ∧ balance_of (sell_chips_to_bank ctx a r).2 (u_id U) = Some (balance U + a)
  ∧ (∀ k, k ≠ u_id U → users (sell_chips_to_bank ctx a r).2 !! k = users r !! k)
  ∧ accounts (sell_chips_to_bank ctx a r).2 = accounts r
  ∧ identities (sell_chips_to_bank ctx a r).2 = identities r
  ∧ success (sell_chips_to_bank ctx a (buy_chips_from_bank ctx a r).2).1 = true
  ∧ balance_of (sell_chips_to_bank ctx a (buy_chips_from_bank ctx a r).2).2 (u_id U)
    = Some (balance U)
  ∧ (sell_chips_to_bank ctx a (buy_chips_from_bank ctx a r).2).2 = r.
Proof.
  intros Hpos Hin. destruct (logged_in_inv ctx r U Hin) as [Hid Hrow].
  assert (Hbal : balance_of r (u_id U) = Some (balance U)).
  { unfold balance_of. by rewrite Hrow. }
  rewrite (buy_chips_from_bank_run ctx a r U Hpos Hin).
  rewrite (sell_chips_to_bank_run ctx a r U Hpos Hin).
  pose proof (logged_in_with_delta ctx (- a) r U Hin) as Hin'.
  cbn [fst snd].
  rewrite (sell_chips_to_bank_run ctx a _ _ Hpos Hin').
  cbn [fst snd u_id success ok]. rewrite with_delta_debit_credit.
  rewrite !balance_with_delta_eq, Hbal.
  repeat split; try done.
  - intros k Hk. by apply users_with_delta_ne.
  - intros k Hk. by apply users_with_delta_ne.
Qed.

Lemma bank_buy_then_sell_witness :
  balance_of (buy_chips_from_bank alice_ctx 30 demo).2 "a1" = Some 70
  ∧ (sell_chips_to_bank alice_ctx 30 (buy_chips_from_bank alice_ctx 30 demo).2).2 = demo.
Proof.
  pose proof (bank_buy_then_sell alice_ctx 30 demo (mkUser "a1" "alice" "" 100)
                ltac:(lia) ltac:(reflexivity)) as H.
  split; [apply H | apply H].
Defined.

(** ** Direct operations between two players *)

Lemma get_by_username_run (name : string) (r : Repos) (arow : AccountRow) :
  accounts r !! name = Some arow →
  get_by_username name r = (Some (account_of_row name arow), r).
Proof. intros H. unfold get_by_username. by rewrite H. Qed.

Lemma get_user_run (k : string) (r : Repos) (row : UserRow) :
  users r !! k = Some row → get_user k r = (Some (user_of_row k row), r).
Proof. intros H. unfold get_user. by rewrite H. Qed.

Lemma buy_chips_from_user_run (ctx : ExternalContext) (a : Z) (name : string)
    (r : Repos) (U : User) (arow : AccountRow) (vrow : UserRow) :
  0 < a →
  (_get_logged_in_user ctx r).1 = Some U →
  accounts r !! name = Some arow →
  users r !! row_account_id arow = Some vrow →
  u_id U ≠ row_account_id arow →
  buy_chips_from_user ctx a name r
  = (ok [mkBroadcastMessage (u_id U)
           (first_name U +:+ " buys " +:+ str_int a +:+ " from " +:+ row_first_name vrow);
         mkBroadcastMessage (row_account_id arow)
           (first_name U +:+ " buys " +:+ str_int a +:+ " from " +:+ row_first_name vrow)],
     with_delta (row_account_id arow) a (with_delta (u_id U) (- a) r)).
Proof.
  intros Hpos Hin Hacc Hrow Hne. unfold buy_chips_from_user.
  rewrite (validate_positive a Hpos). unfold bind.
  rewrite (logged_in_run ctx r U Hin), (get_by_username_run name r arow Hacc).
  cbn [a_id account_of_row]. rewrite (get_user_run _ r vrow Hrow).
  cbn [u_id user_of_row]. by rewrite bool_decide_eq_false_2.
Qed.

Lemma sell_chips_to_user_run (ctx : ExternalContext) (a : Z) (name : string)
    (r : Repos) (U : User) (arow : AccountRow) (vrow : UserRow) :
  0 < a →
  (_get_logged_in_user ctx r).1 = Some U →
  accounts r !! name = Some arow →
  users r !! row_account_id arow = Some vrow →
  u_id U ≠ row_account_id arow →
  sell_chips_to_user ctx a name r
  = (ok [mkBroadcastMessage (u_id U)
           (first_name U +:+ " sells " +:+ str_int a +:+ " to " +:+ row_first_name vrow);
         mkBroadcastMessage (row_account_id arow)
           (first_name U +:+ " sells " +:+ str_int a +:+ " to " +:+ row_first_name vrow)],
     with_delta (u_id U) a (with_delta (row_account_id arow) (- a) r)).
Proof.
  intros Hpos Hin Hacc Hrow Hne. unfold sell_chips_to_user.
  rewrite (validate_positive a Hpos). unfold bind.
  rewrite (logged_in_run ctx r U Hin), (get_by_username_run name r arow Hacc).
  cbn [a_id account_of_row]. rewrite (get_user_run _ r vrow Hrow).
  cbn [u_id user_of_row]. by rewrite bool_decide_eq_false_2.
Qed.

(** C1.  For a positive amount [a], a caller logged in as [U] and a username
    [name] whose account resolves to an existing user [V] other than [U],
    [buy_chips_from_user] succeeds; the balance of [U] goes down by exactly
    [a] and the balance of [V] up by exactly [a], so that their sum is what it
    was; nothing else in the repositories changes; and the notifications are
    exactly two, the first to [U] and the second to [V], both with the text
    "<name of U> buys <a> from <name of V>". *)
Theorem buy_chips_from_user_transfers (ctx : ExternalContext) (a : Z)
    (name : string) (r : Repos) (U : User) (arow : AccountRow) (vrow : UserRow) :
  0 < a →
  (_get_logged_in_user ctx r).1 = Some U →
  accounts r !! name = Some arow →
  users r !! row_account_id arow = Some vrow →
  u_id U ≠ row_account_id arow →
  let V := row_account_id arow in
  let res := (buy_chips_from_user ctx a name r).1 in
  let r' := (buy_chips_from_user ctx a name r).2 in
  let msg := first_name U +:+ " buys " +:+ str_int a +:+ " from " +:+ row_first_name vrow in
  success res = true
  ∧ error_message res = None
  ∧ balance_of r (u_id U) = Some (balance U)
  ∧ balance_of r V = Some (row_balance vrow)
  ∧ balance_of r' (u_id U) = Some (balance U - a)
  ∧ balance_of r' V = Some (row_balance vrow + a)
  ∧ (balance U - a) + (row_balance vrow + a) = balance U + row_balance vrow
  ∧ (∀ k, k ≠ u_id U → k ≠ V → users r' !! k = users r !! k)
  ∧ display_name_of r' (u_id U) = Some (first_name U)
  ∧ display_name_of r' V = Some (row_first_name vrow)
  ∧ accounts r' = accounts r
  ∧ identities r' = identities r
  ∧ broadcasts res = [mkBroadcastMessage (u_id U) msg; mkBroadcastMessage V msg].
Proof.
  intros Hpos Hin Hacc Hrow Hne.
  destruct (logged_in_inv ctx r U Hin) as [Hid HU].
  rewrite (buy_chips_from_user_run ctx a name r U arow vrow Hpos Hin Hacc Hrow Hne).
  cbn [fst snd success error_message broadcasts ok].
  unfold balance_of, display_name_of, with_delta. cbn [users accounts identities].
  rewrite lookup_alter_eq, (lookup_alter_ne _ _ (row_account_id arow) (u_id U)) by done.
  rewrite lookup_alter_eq, (lookup_alter_ne _ _ (u_id U) (row_account_id arow)) by done.
  rewrite HU, Hrow. cbn.
  repeat split; try done.
  - lia.
  - intros k Hk1 Hk2. by rewrite !lookup_alter_ne.
Qed.

Lemma buy_chips_from_user_transfers_witness :
  balance_of (buy_chips_from_user alice_ctx 30 "bob" demo).2 "a1" = Some 70
  ∧ balance_of (buy_chips_from_user alice_ctx 30 "bob" demo).2 "b2" = Some 80
  ∧ broadcasts (buy_chips_from_user alice_ctx 30 "bob" demo).1
    = [mkBroadcastMessage "a1" "alice buys 30 from bob";
       mkBroadcastMessage "b2" "alice buys 30 from bob"].
Proof.
  pose proof (buy_chips_from_user_transfers alice_ctx 30 "bob" demo
                (mkUser "a1" "alice" "" 100) (mkAccountRow "b2" "")
                (mkUserRow "bob" "" 50)
                ltac:(lia) ltac:(reflexivity) ltac:(reflexivity)
                ltac:(reflexivity) ltac:(discriminate)) as H.
  cbv zeta in H. split; [apply H | split; apply H].
Defined.

(** C9.  For a positive amount and a caller logged in as [U], when the
    counterparty username resolves to an account whose id is the id of [U],
    [buy_chips_from_user] and [sell_chips_to_user] fail with their
    self-transaction errors, hand the repositories back as they were and carry
    no notification. *)
Theorem no_transaction_with_oneself (ctx : ExternalContext) (a : Z)
    (name : string) (r : Repos) (U : User) (arow : AccountRow) :
  0 < a →
  (_get_logged_in_user ctx r).1 = Some U →
  accounts r !! name = Some arow →
  row_account_id arow = u_id U →
  buy_chips_from_user ctx a name r
  = (mkOperationResult false (Some "You cannot buy chips from yourself.") [], r)
  ∧ sell_chips_to_user ctx a name r
    = (mkOperationResult false (Some "You cannot sell chips to yourself.") [], r).
Proof.
  intros Hpos Hin Hacc Hself.
  destruct (logged_in_inv ctx r U Hin) as [Hid HU].
  unfold buy_chips_from_user, sell_chips_to_user.
  rewrite (validate_positive a Hpos). unfold bind.
  rewrite (logged_in_run ctx r U Hin), (get_by_username_run name r arow Hacc).
  cbn [a_id account_of_row]. rewrite Hself, (get_user_run _ r _ HU).
  cbn [u_id user_of_row]. by rewrite bool_decide_eq_true_2.
Qed.

Lemma no_transaction_with_oneself_witness :
  buy_chips_from_user alice_ctx 30 "alice" demo
  = (mkOperationResult false (Some "You cannot buy chips from yourself.") [], demo)
  ∧ sell_chips_to_user alice_ctx 30 "alice" demo
    = (mkOperationResult false (Some "You cannot sell chips to yourself.") [], demo).
Proof.
  apply (no_transaction_with_oneself alice_ctx 30 "alice" demo
           (mkUser "a1" "alice" "" 100) (mkAccountRow "a1" ""));
    [lia | reflexivity | reflexivity | reflexivity].
Defined.

(** ** Enumeration of the users *)

Lemma elem_of_get_all_users (r : Repos) (V : User) :
  V ∈ (get_all_users r).1 ↔ users r !! u_id V = Some (row_of_user V).
Proof.
  unfold get_all_users. cbn [fst]. rewrite list_elem_of_fmap. split.
  - intros [[k row] [-> Hel]]. apply elem_of_map_to_list in Hel.
    cbn. by destruct row.
  - intros H. exists (u_id V, row_of_user V). split; [by destruct V|].
    by apply elem_of_map_to_list.
Qed.

Lemma get_all_users_ids (r : Repos) :
  u_id <$> (get_all_users r).1 = (map_to_list (users r)).*1.
Proof.
  unfold get_all_users. cbn [fst]. rewrite <- list_fmap_compose.
  apply list_fmap_ext. by intros i [k row] _.
Qed.

Lemma NoDup_get_all_users (r : Repos) : NoDup (get_all_users r).1.
Proof.
  apply (NoDup_fmap_1 u_id). rewrite get_all_users_ids.
  apply NoDup_fst_map_to_list.
Qed.

Lemma length_get_all_users (r : Repos) :
  length (get_all_users r).1 = size (users r).
Proof. unfold get_all_users. cbn [fst]. by rewrite length_fmap, length_map_to_list. Qed.

Lemma known_with_delta (k j : string) (delta : Z) (r : Repos) :
  is_Some (users (with_delta k delta r) !! j) ↔ is_Some (users r !! j).
Proof. unfold with_delta. cbn [users]. apply lookup_alter_is_Some. Qed.

Lemma elem_of_all_ids (r : Repos) (k : string) :
  k ∈ u_id <$> (get_all_users r).1 ↔ is_Some (users r !! k).
Proof.
  rewrite get_all_users_ids, list_elem_of_fmap. split.
  - intros [[j row] [-> Hel]]. apply elem_of_map_to_list in Hel. by exists row.
  - intros [row Hrow]. exists (k, row). split; [done|].
    by apply elem_of_map_to_list.
Qed.

(** ** The proposed transfer: initiate, confirm, reject *)

Lemma confirm_buy_from_player_run (s t : string) (a : Z) (r : Repos)
    (srow trow : UserRow) :
  0 < a →
  users r !! s = Some srow →
  users r !! t = Some trow →
  confirm_buy_from_player s t a r
  = (ok (announce (row_first_name srow +:+ " buys " +:+ str_int a +:+ " from "
                   +:+ row_first_name trow)
                  (with_delta t a (with_delta s (- a) r))),
     with_delta t a (with_delta s (- a) r)).
Proof.
  intros Hpos Hs Ht. unfold confirm_buy_from_player.
  rewrite (validate_positive a Hpos). unfold bind.
  rewrite (get_user_run s r srow Hs), (get_user_run t r trow Ht).
  reflexivity.
Qed.

Lemma confirm_buy_from_player_missing (s t : string) (a : Z) (r : Repos) :
  0 < a →
  users r !! s = None ∨ users r !! t = None →
  confirm_buy_from_player s t a r = (failure " Buyer or seller not found.", r).
Proof.
  intros Hpos Hmiss. unfold confirm_buy_from_player.
  rewrite (validate_positive a Hpos). unfold bind, get_user.
  destruct Hmiss as [-> | ->]; [done|]. by destruct (users r !! s).
Qed.

(** The announcement reaches each known user once, always with the same
    text. *)
Lemma announce_recipients (msg : string) (r : Repos) :
  NoDup (user_id <$> announce msg r)
  ∧ (∀ k, k ∈ user_id <$> announce msg r ↔ is_Some (users r !! k))
  ∧ length (announce msg r) = size (users r)
  ∧ (∀ b, b ∈ announce msg r → text b = msg).
Proof.
  assert (Hids : user_id <$> announce msg r = u_id <$> (get_all_users r).1).
  { unfold announce. rewrite <- list_fmap_compose. by apply list_fmap_ext. }
  repeat split.
  - rewrite Hids, get_all_users_ids. apply NoDup_fst_map_to_list.
  - rewrite Hids. apply elem_of_all_ids.
  - rewrite Hids. apply elem_of_all_ids.
  - unfold announce. by rewrite length_fmap, length_get_all_users.
  - unfold announce. intros b [u [-> _]]%list_elem_of_fmap. done.
Qed.

(** C2.  For a positive amount [a]: when the source id or the target id is
    not the id of a user, [confirm_buy_from_player] fails with its not-found
    error and hands the repositories back as they were.  When both are ids of
    users it succeeds; it takes exactly [a] from the balance of the source and
    then adds exactly [a] to the balance of the target, these two deltas and
    nothing else, so that for two different users the source ends [a] lower
    and the target [a] higher; no other user, no account and no identity link
    changes; and the notifications are one for each known user, not only the
    two parties, all with the text "<source name> buys <a> from <target
    name>". *)
Theorem confirm_buy_from_player_spec (s t : string) (a : Z) (r : Repos) :
  0 < a →
  (users r !! s = None ∨ users r !! t = None →
   confirm_buy_from_player s t a r
   = (mkOperationResult false (Some " Buyer or seller not found.") [], r))
  ∧ (∀ srow trow,
       users r !! s = Some srow →
       users r !! t = Some trow →
       let res := (confirm_buy_from_player s t a r).1 in
       let r' := (confirm_buy_from_player s t a r).2 in
       let msg := row_first_name srow +:+ " buys " +:+ str_int a +:+ " from "
                  +:+ row_first_name trow in
       success res = true
       ∧ error_message res = None
       ∧ (s ≠ t →
          balance_of r' s = Some (row_balance srow - a)
          ∧ balance_of r' t = Some (row_balance trow + a))
       ∧ (∀ k, k ≠ s → k ≠ t → users r' !! k = users r !! k)
       ∧ accounts r' = accounts r
       ∧ identities r' = identities r
       ∧ NoDup (user_id <$> broadcasts res)
       ∧ (∀ k, k ∈ user_id <$> broadcasts res ↔ is_Some (users r !! k))
       ∧ length (broadcasts res) = size (users r)
       ∧ (∀ b, b ∈ broadcasts res → text b = msg)
       ∧ balance_of (update_balance s (- a) r).2 s = Some (row_balance srow - a)
       ∧ r' = (update_balance t a (update_balance s (- a) r).2).2
       ∧ balance_of r' t
         = (λ b, b + a) <$> balance_of (update_balance s (- a) r).2 t).
Proof.
  intros Hpos. split; [apply (confirm_buy_from_player_missing s t a r Hpos)|].
  intros srow trow Hs Ht.
  rewrite (confirm_buy_from_player_run s t a r srow trow Hpos Hs Ht).
  cbn [fst snd success error_message broadcasts ok].
  destruct (announce_recipients
              (row_first_name srow +:+ " buys " +:+ str_int a +:+ " from "
               +:+ row_first_name trow)
              (with_delta t a (with_delta s (- a) r))) as (Hnd & Hmem & Hlen & Htxt).
  split_and!; try done.
  - intros Hne. unfold balance_of, with_delta. cbn [users].
    rewrite (lookup_alter_ne _ _ t s), !lookup_alter_eq, (lookup_alter_ne _ _ s t) by done.
    rewrite Hs, Ht. by cbn.
  - intros k Hk1 Hk2. unfold with_delta. cbn [users]. by rewrite !lookup_alter_ne.
  - intros k. rewrite Hmem, !known_with_delta. done.
  - rewrite Hlen. unfold with_delta. cbn [users].
    rewrite <- !size_dom, !dom_alter_L. done.
  - rewrite update_balance_run. cbn [snd].
    rewrite balance_with_delta_eq. unfold balance_of. by rewrite Hs.
  - rewrite !update_balance_run. cbn [snd].
    apply balance_with_delta_eq.
Qed.

Lemma confirm_buy_from_player_spec_witness :
  balance_of (confirm_buy_from_player "a1" "b2" 10 demo).2 "a1" = Some 90
  ∧ balance_of (confirm_buy_from_player "a1" "b2" 10 demo).2 "b2" = Some 60
  ∧ confirm_buy_from_player "a1" "zz" 10 demo
    = (mkOperationResult false (Some " Buyer or seller not found.") [], demo).
Proof.
  destruct (confirm_buy_from_player_spec "a1" "b2" 10 demo ltac:(lia)) as [_ H].
  specialize (H (mkUserRow "alice" "" 100) (mkUserRow "bob" "" 50)
                ltac:(reflexivity) ltac:(reflexivity)).
  cbv zeta in H. destruct H as (_ & _ & Hbal & _).
  specialize (Hbal ltac:(discriminate)).
  split; [apply Hbal | split; [apply Hbal |]].
  apply (confirm_buy_from_player_spec "a1" "zz" 10 demo); [lia | right; reflexivity].
Defined.

(** C10.  [confirm_buy_from_player] has no check that source and target
    differ: for the id [u] of an existing user and a positive [a], the call
    with [u] as both succeeds, hands back the repositories as they were (the
    debit and the credit of [a] cancel), and announces
    "<name of u> buys <a> from <name of u>" once to each known user. *)
Theorem confirm_buy_from_player_same_user (u : string) (a : Z) (r : Repos)
    (row : UserRow) :
  0 < a →
  users r !! u = Some row →
  let res := (confirm_buy_from_player u u a r).1 in
  let msg := row_first_name row +:+ " buys " +:+ str_int a +:+ " from "
             +:+ row_first_name row in
  success res = true
  ∧ error_message res = None
  ∧ (confirm_buy_from_player u u a r).2 = r
  ∧ (∀ k, balance_of (confirm_buy_from_player u u a r).2 k = balance_of r k)
  ∧ NoDup (user_id <$> broadcasts res)
  ∧ (∀ k, k ∈ user_id <$> broadcasts res ↔ is_Some (users r !! k))
  ∧ length (broadcasts res) = size (users r)
  ∧ (∀ b, b ∈ broadcasts res → text b = msg).
Proof.
  intros Hpos Hu.
  rewrite (confirm_buy_from_player_run u u a r row row Hpos Hu Hu).
  rewrite with_delta_debit_credit.
  cbn [fst snd success error_message broadcasts ok].
  destruct (announce_recipients
              (row_first_name row +:+ " buys " +:+ str_int a +:+ " from "
               +:+ row_first_name row) r) as (Hnd & Hmem & Hlen & Htxt).
  split_and!; done.
Qed.

Lemma confirm_buy_from_player_same_user_witness :
  (confirm_buy_from_player "a1" "a1" 10 demo).2 = demo
  ∧ ∀ b, b ∈ broadcasts (confirm_buy_from_player "a1" "a1" 10 demo).1 →
         text b = "alice buys 10 from alice".
Proof.
  pose proof (confirm_buy_from_player_same_user "a1" 10 demo
                (mkUserRow "alice" "" 100) ltac:(lia) ltac:(reflexivity)) as H.
  cbv zeta in H. split; apply H.
Defined.

Lemma initiate_buy_from_player_run (ctx : ExternalContext) (a : Z)
    (r : Repos) (U : User) :
  0 < a →
  (_get_logged_in_user ctx r).1 = Some U →
  initiate_buy_from_player ctx a r
  = (match filter (λ u, u_id u ≠ u_id U) (get_all_users r).1 with
     | [] => mkInitiateBuyFromResult false
               (Some "No other players available to buy from.") (Some U) []
     | V :: rest => mkInitiateBuyFromResult true None (Some U) (V :: rest)
     end, r).
Proof.
  intros Hpos Hin. unfold initiate_buy_from_player.
  rewrite (validate_positive a Hpos). unfold bind.
  rewrite (logged_in_run ctx r U Hin). unfold get_all_users. cbn [fst].
  by destruct (filter _ _).
Qed.

(** C7.  For a positive amount and a caller logged in as [U],
    [initiate_buy_from_player] hands the repositories back as they were and
    returns [U] as the source user together with the candidates: the known
    users other than [U], each once.  The call fails exactly when no user
    other than [U] is known, and then with the no-candidates error.  Its
    result type has no field for notifications. *)
Theorem initiate_buy_from_player_spec (ctx : ExternalContext) (a : Z)
    (r : Repos) (U : User) :
  0 < a →
  (_get_logged_in_user ctx r).1 = Some U →
  let res := (initiate_buy_from_player ctx a r).1 in
  (initiate_buy_from_player ctx a r).2 = r
  ∧ source_user res = Some U
  ∧ candidates res = filter (λ u, u_id u ≠ u_id U) (get_all_users r).1
  ∧ (∀ V, V ∈ candidates res
          ↔ u_id V ≠ u_id U ∧ users r !! u_id V = Some (row_of_user V))
  ∧ NoDup (candidates res)
  ∧ (init_success res = false ↔ ∀ k, is_Some (users r !! k) → k = u_id U)
  ∧ (init_success res = false →
     init_error_message res = Some "No other players available to buy from.")
  ∧ (init_success res = true → init_error_message res = None).
Proof.
  intros Hpos Hin.
  rewrite (initiate_buy_from_player_run ctx a r U Hpos Hin). cbn [fst snd].
  assert (Hmem : ∀ V, V ∈ filter (λ u, u_id u ≠ u_id U) (get_all_users r).1
                      ↔ u_id V ≠ u_id U ∧ users r !! u_id V = Some (row_of_user V)).
  { intros V. by rewrite list_elem_of_filter, elem_of_get_all_users. }
  assert (Hnd : NoDup (filter (λ u, u_id u ≠ u_id U) (get_all_users r).1)).
  { apply NoDup_filter, NoDup_get_all_users. }
  destruct (filter (λ u, u_id u ≠ u_id U) (get_all_users r).1) as [|V0 rest] eqn:Hf;
    cbn; split_and!; try done.
  - split; [|done]. intros _ k [row Hrow].
    destruct (decide (k = u_id U)) as [|Hne]; [done|].
    exfalso. apply (not_elem_of_nil (user_of_row k row)).
    apply Hmem. cbn. split; [done|]. by destruct row.
  - split; [done|]. intros Hall. exfalso.
    assert (HV0 : V0 ∈ V0 :: rest) by left.
    apply Hmem in HV0 as [Hne HV0]. apply Hne, Hall. by eexists.
Qed.

Lemma initiate_buy_from_player_spec_witness :
  init_success (initiate_buy_from_player alice_ctx 10 demo).1 = true
  ∧ source_user (initiate_buy_from_player alice_ctx 10 demo).1
    = Some (mkUser "a1" "alice" "" 100)
  ∧ (initiate_buy_from_player alice_ctx 10 demo).2 = demo.
Proof.
  pose proof (initiate_buy_from_player_spec alice_ctx 10 demo
                (mkUser "a1" "alice" "" 100) ltac:(lia) ltac:(reflexivity)) as H.
  cbv zeta in H. split; [reflexivity | split; apply H].
Defined.

(** C8.  Whatever the source id, the target id and the amount are,
    [reject_buy_from_player] succeeds with exactly one notification, addressed
    to the source id, with the text "haha sorry", and its result is the same
    for every target id and every amount.  The function receives no
    repository: run as a step of the services' monad it hands every repository
    back as it was. *)
Theorem reject_buy_from_player_spec (s t t' : string) (a a' : Z) (r : Repos) :
  reject_buy_from_player s t a
  = mkOperationResult true None [mkBroadcastMessage s "haha sorry"]
  ∧ reject_buy_from_player s t a = reject_buy_from_player s t' a'
  ∧ (ret (reject_buy_from_player s t a) r).2 = r
  ∧ (∀ k, balance_of (ret (reject_buy_from_player s t a) r).2 k = balance_of r k).
Proof. by split_and!. Qed.

(** ** Registration, login and logout *)

(** C5.  [register_or_login_user] always succeeds.  When an account with the
    username exists, the account table and the user table come back as they
    were (no account, no user is created, every balance is what it was).  When
    none exists, and the identifier drawn for it is not yet the id of a user
    (the uuid is a new one), exactly one account and one user are added, both
    under that identifier, the user with the username as its display name and
    a balance of 0.  In both cases the link of the caller's (provider,
    provider user id) pair is set to the account's id, whatever it was before,
    and the links of all other pairs stay. *)
Theorem register_or_login_user_spec (ctx : ExternalContext) (name new_id : string)
    (r : Repos) :
  let res := (register_or_login_user ctx name new_id r).1 in
  let r' := (register_or_login_user ctx name new_id r).2 in
  let link := (provider ctx, provider_user_id ctx) in
  res = mkOperationResult true None []
  ∧ (∀ arow, accounts r !! name = Some arow →
       accounts r' = accounts r
       ∧ users r' = users r
       ∧ (∀ k, balance_of r' k = balance_of r k)
       ∧ identities r' = <[link := row_account_id arow]> (identities r)
       ∧ identities r' !! link = Some (row_account_id arow))
  ∧ (accounts r !! name = None →
     users r !! new_id = None →
       accounts r' = <[name := mkAccountRow new_id ""]> (accounts r)
       ∧ size (accounts r') = S (size (accounts r))
       ∧ (∀ n, n ≠ name → accounts r' !! n = accounts r !! n)
       ∧ (get_by_username name r').1 = Some (mkAccount new_id name "")
       ∧ users r' = <[new_id := mkUserRow name "" 0]> (users r)
       ∧ size (users r') = S (size (users r))
       ∧ (∀ k, k ≠ new_id → users r' !! k = users r !! k)
       ∧ (get_user new_id r').1 = Some (mkUser new_id name "" 0)
       ∧ identities r' = <[link := new_id]> (identities r)
       ∧ identities r' !! link = Some new_id)
  ∧ (∀ l, l ≠ link → identities r' !! l = identities r !! l).
Proof.
  unfold register_or_login_user, bind, get_by_username.
  destruct (accounts r !! name) as [arow|] eqn:Hacc; cbn; split_and!; try done.
  - intros arow' [= <-]. split_and!; try done. apply lookup_insert_eq.
  - intros l Hl. by rewrite lookup_insert_ne.
  - intros _ Hfresh. split_and!; try done.
    + by apply map_size_insert_None.
    + intros n Hn. by rewrite lookup_insert_ne.
    + by rewrite lookup_insert_eq.
    + by apply map_size_insert_None.
    + intros k Hk. by rewrite lookup_insert_ne.
    + by rewrite lookup_insert_eq.
    + apply lookup_insert_eq.
  - intros l Hl. by rewrite lookup_insert_ne.
Qed.

Lemma register_or_login_user_spec_witness :
  (get_user "d4" (register_or_login_user alice_ctx "dave" "d4" demo).2).1
  = Some (mkUser "d4" "dave" "" 0)
  ∧ users (register_or_login_user alice_ctx "bob" "d4" demo).2 = users demo.
Proof.
  split.
  - apply (register_or_login_user_spec alice_ctx "dave" "d4" demo); reflexivity.
  - apply (proj1 (proj2 (register_or_login_user_spec alice_ctx "bob" "d4" demo))
             (mkAccountRow "b2" "")).
    reflexivity.
Defined.

(** C6.  [logout_external_identity] succeeds, removes the link of the caller's
    (provider, provider user id) pair and no other link, is without effect
    when the pair has no link, and leaves the accounts, the users and every
    balance as they were; after it [_get_logged_in_user] for the same context
    answers [None], the not-logged-in outcome, and changes nothing. *)
Theorem logout_external_identity_spec (ctx : ExternalContext) (r : Repos) :
  let r' := (logout_external_identity ctx r).2 in
  let link := (provider ctx, provider_user_id ctx) in
  (logout_external_identity ctx r).1 = mkOperationResult true None []
  ∧ accounts r' = accounts r
  ∧ users r' = users r
  ∧ (∀ k, balance_of r' k = balance_of r k)
  ∧ identities r' = delete link (identities r)
  ∧ identities r' !! link = None
  ∧ (∀ l, l ≠ link → identities r' !! l = identities r !! l)
  ∧ (identities r !! link = None → r' = r)
  ∧ _get_logged_in_user ctx r' = (None, r').
Proof.
  unfold logout_external_identity, bind, clear_external_identity,
    _get_logged_in_user, find_user_by_external.
  cbn. split_and!; try done.
  - apply lookup_delete_eq.
  - intros l Hl. by rewrite lookup_delete_ne.
  - intros Hnone. rewrite delete_id by done. apply repos_eta.
  - by rewrite lookup_delete_eq.
Qed.

Lemma logout_external_identity_spec_witness :
  _get_logged_in_user alice_ctx (logout_external_identity alice_ctx demo).2
  = (None, (logout_external_identity alice_ctx demo).2)
  ∧ users (logout_external_identity alice_ctx demo).2 = users demo.
Proof.
  split; apply (logout_external_identity_spec alice_ctx demo).
Defined.

(** * Further properties of the services *)

(** ** The sum of the balances *)

Lemma total_balance_insert (k : string) (row : UserRow) (r : Repos) :
  users r !! k = None →
  total_balance (mkRepos (accounts r) (<[k := row]> (users r)) (identities r))
  = row_balance row + total_balance r.
Proof.
  intros Hk. unfold total_balance. cbn [users].
  rewrite map_fold_insert_L; [done | intros; lia | done].
Qed.

Lemma total_balance_with_delta (k : string) (delta : Z) (r : Repos) :
  is_Some (users r !! k) →
  total_balance (with_delta k delta r) = total_balance r + delta.
Proof.
  intros [row Hrow]. unfold total_balance, with_delta. cbn [users].
  rewrite (map_fold_delete_L _ _ k (add_delta delta row) (alter _ k (users r)));
    [| intros; lia | by rewrite lookup_alter_eq, Hrow].
  rewrite (map_fold_delete_L _ _ k row (users r)); [| intros; lia | done].
  rewrite delete_alter_eq. cbn. lia.
Qed.

Lemma is_Some_with_delta (k j : string) (delta : Z) (r : Repos) :
  is_Some (users r !! j) → is_Some (users (with_delta k delta r) !! j).
Proof. intros H. by apply known_with_delta. Qed.

Lemma dom_with_delta (k : string) (delta : Z) (r : Repos) :
  dom (users (with_delta k delta r)) = dom (users r).
Proof. unfold with_delta. cbn [users]. apply dom_alter_L. Qed.

Lemma display_name_with_delta (k j : string) (delta : Z) (r : Repos) :
  display_name_of (with_delta k delta r) j = display_name_of r j.
Proof.
  unfold display_name_of, with_delta. cbn [users].
  destruct (decide (k = j)) as [->|Hne].
  - rewrite lookup_alter_eq. by destruct (users r !! j).
  - by rewrite lookup_alter_ne.
Qed.

(** ** Every outcome of a chip operation *)

Ltac refuse :=
  left; unfold refused; cbn; split_and!; [done | by eexists | done | done].

(** A bank operation is refused, or it is accepted and has applied one delta
    to the row of a known user. *)
Lemma buy_chips_from_bank_cases (ctx : ExternalContext) (a : Z) (r : Repos) :
  refused (buy_chips_from_bank ctx a r) r
  ∨ (accepted (buy_chips_from_bank ctx a r)
     ∧ ∃ k, is_Some (users r !! k)
            ∧ (buy_chips_from_bank ctx a r).2 = with_delta k (- a) r).
Proof.
  unfold buy_chips_from_bank, _validate_positive_amount.
  case_bool_decide; [refuse|].
  unfold bind, _get_logged_in_user, find_user_by_external.
  destruct (identities r !! _) as [k|]; [|refuse].
  destruct (users r !! k) as [row|] eqn:Hrow; [|refuse].
  right. split; [done|]. exists k. by split; [eexists|].
Qed.

Lemma sell_chips_to_bank_cases (ctx : ExternalContext) (a : Z) (r : Repos) :
  refused (sell_chips_to_bank ctx a r) r
  ∨ (accepted (sell_chips_to_bank ctx a r)
     ∧ ∃ k, is_Some (users r !! k)
            ∧ (sell_chips_to_bank ctx a r).2 = with_delta k a r).
Proof.
  unfold sell_chips_to_bank, _validate_positive_amount.
  case_bool_decide; [refuse|].
  unfold bind, _get_logged_in_user, find_user_by_external.
  destruct (identities r !! _) as [k|]; [|refuse].
  destruct (users r !! k) as [row|] eqn:Hrow; [|refuse].
  right. split; [done|]. exists k. by split; [eexists|].
Qed.

(** A two-party operation is refused, or it is accepted and has moved the
    amount from the row of one known user to the row of another. *)
Lemma buy_chips_from_user_cases (ctx : ExternalContext) (a : Z) (name : string)
    (r : Repos) :
  refused (buy_chips_from_user ctx a name r) r
  ∨ (accepted (buy_chips_from_user ctx a name r)
     ∧ ∃ k1 k2, is_Some (users r !! k1) ∧ is_Some (users r !! k2)
                ∧ (buy_chips_from_user ctx a name r).2
                  = with_delta k2 a (with_delta k1 (- a) r)).
Proof.
  unfold buy_chips_from_user, _validate_positive_amount.
  case_bool_decide; [refuse|].
  unfold bind, _get_logged_in_user, find_user_by_external, get_by_username, get_user.
  destruct (identities r !! _) as [k|]; [|refuse].
  destruct (users r !! k) as [row|] eqn:Hrow; [|refuse].
  cbn. destruct (accounts r !! name) as [arow|]; [|refuse].
  cbn. destruct (users r !! row_account_id arow) as [vrow|] eqn:Hv;
    [|refuse].
  cbn. case_bool_decide; [refuse|].
  right. split; [done|]. exists k, (row_account_id arow).
  by split_and!; [eexists | eexists |].
Qed.

Lemma sell_chips_to_user_cases (ctx : ExternalContext) (a : Z) (name : string)
    (r : Repos) :
  refused (sell_chips_to_user ctx a name r) r
  ∨ (accepted (sell_chips_to_user ctx a name r)
     ∧ ∃ k1 k2, is_Some (users r !! k1) ∧ is_Some (users r !! k2)
                ∧ (sell_chips_to_user ctx a name r).2
                  = with_delta k2 a (with_delta k1 (- a) r)).
Proof.
  unfold sell_chips_to_user, _validate_positive_amount.
  case_bool_decide; [refuse|].
  unfold bind, _get_logged_in_user, find_user_by_external, get_by_username, get_user.
  destruct (identities r !! _) as [k|]; [|refuse].
  destruct (users r !! k) as [row|] eqn:Hrow; [|refuse].
  cbn. destruct (accounts r !! name) as [arow|]; [|refuse].
  cbn. destruct (users r !! row_account_id arow) as [vrow|] eqn:Hv;
    [|refuse].
  cbn. case_bool_decide; [refuse|].
  right. split; [done|]. exists (row_account_id arow), k.
  by split_and!; [eexists | eexists |].
Qed.

Lemma confirm_buy_from_player_cases (s t : string) (a : Z) (r : Repos) :
  refused (confirm_buy_from_player s t a r) r
  ∨ (accepted (confirm_buy_from_player s t a r)
     ∧ ∃ k1 k2, is_Some (users r !! k1) ∧ is_Some (users r !! k2)
                ∧ (confirm_buy_from_player s t a r).2
                  = with_delta k2 a (with_delta k1 (- a) r)).
Proof.
  unfold confirm_buy_from_player, _validate_positive_amount.
  case_bool_decide; [refuse|].
  unfold bind, get_user.
  destruct (users r !! s) as [srow|] eqn:Hs;
    [|destruct (users r !! t); refuse].
  destruct (users r !! t) as [trow|] eqn:Ht; [|refuse].
  right. cbn. split.
  - split_and!; [done | done |]. unfold get_all_users. cbn.
    intros Hnil%fmap_nil_inv%fmap_nil_inv%map_to_list_empty_iff.
    assert (Hin : is_Some (users r !! s)) by by eexists.
    apply (is_Some_with_delta s s (- a)), (is_Some_with_delta t s a) in Hin.
    unfold with_delta in Hin. cbn in Hin. rewrite Hnil, lookup_empty in Hin.
    by destruct Hin.
  - exists s, t. by split_and!; [eexists | eexists |].
Qed.

Lemma same_people_refl (r : Repos) : same_people r r.
Proof. by repeat split. Qed.

Lemma same_people_with_delta (k : string) (delta : Z) (r0 r : Repos) :
  same_people r0 r → same_people r0 (with_delta k delta r).
Proof.
  intros (Hacc & Hid & Hdom & Hname). split_and!; [done | done | |].
  - by rewrite dom_with_delta.
  - intros j. by rewrite display_name_with_delta.
Qed.

(** X1.  All or nothing.  Whatever the arguments and the repositories, each of
    the five operations that return an [OperationResult] after a validation
    either fails, and then carries a non-empty error message, no notification,
    and hands the repositories back as they were, or succeeds, and then
    carries no error message and at least one notification. *)
Theorem chip_operations_all_or_nothing (ctx : ExternalContext) (a : Z)
    (name s t : string) (r : Repos) :
  (refused (buy_chips_from_bank ctx a r) r ∨ accepted (buy_chips_from_bank ctx a r))
  ∧ (refused (sell_chips_to_bank ctx a r) r ∨ accepted (sell_chips_to_bank ctx a r))
  ∧ (refused (buy_chips_from_user ctx a name r) r
     ∨ accepted (buy_chips_from_user ctx a name r))
  ∧ (refused (sell_chips_to_user ctx a name r) r
     ∨ accepted (sell_chips_to_user ctx a name r))
  ∧ (refused (confirm_buy_from_player s t a r) r
     ∨ accepted (confirm_buy_from_player s t a r)).
Proof.
  split_and!.
  - destruct (buy_chips_from_bank_cases ctx a r) as [?|[? _]]; auto.
  - destruct (sell_chips_to_bank_cases ctx a r) as [?|[? _]]; auto.
  - destruct (buy_chips_from_user_cases ctx a name r) as [?|[? _]]; auto.
  - destruct (sell_chips_to_user_cases ctx a name r) as [?|[? _]]; auto.
  - destruct (confirm_buy_from_player_cases s t a r) as [?|[? _]]; auto.
Qed.

(** X2.  Chips are conserved between players.  For every input, accepted or
    refused, the sum of all balances after [buy_chips_from_user],
    [sell_chips_to_user] and [confirm_buy_from_player] is the sum before; this
    includes a confirmation whose source and target are the same user. *)
Theorem player_transfers_conserve_total (ctx : ExternalContext) (a : Z)
    (name s t : string) (r : Repos) :
  total_balance (buy_chips_from_user ctx a name r).2 = total_balance r
  ∧ total_balance (sell_chips_to_user ctx a name r).2 = total_balance r
  ∧ total_balance (confirm_buy_from_player s t a r).2 = total_balance r.
Proof.
  assert (Hmove : ∀ k1 k2, is_Some (users r !! k1) → is_Some (users r !! k2) →
            total_balance (with_delta k2 a (with_delta k1 (- a) r)) = total_balance r).
  { intros k1 k2 H1 H2.
    rewrite !total_balance_with_delta; [lia | done | by apply is_Some_with_delta]. }
  split_and!.
  - destruct (buy_chips_from_user_cases ctx a name r)
      as [(_ & _ & _ & ->)|(_ & k1 & k2 & H1 & H2 & ->)]; auto.
  - destruct (sell_chips_to_user_cases ctx a name r)
      as [(_ & _ & _ & ->)|(_ & k1 & k2 & H1 & H2 & ->)]; auto.
  - destruct (confirm_buy_from_player_cases s t a r)
      as [(_ & _ & _ & ->)|(_ & k1 & k2 & H1 & H2 & ->)]; auto.
Qed.

(** X3.  The bank is the only source and sink of chips.  For every input, an
    accepted [buy_chips_from_bank] lowers the sum of all balances by exactly
    the amount, an accepted [sell_chips_to_bank] raises it by exactly the
    amount, and a refused one leaves it. *)
Theorem bank_operations_change_total (ctx : ExternalContext) (a : Z) (r : Repos) :
  total_balance (buy_chips_from_bank ctx a r).2
  = (if success (buy_chips_from_bank ctx a r).1
     then total_balance r - a else total_balance r)
  ∧ total_balance (sell_chips_to_bank ctx a r).2
    = (if success (sell_chips_to_bank ctx a r).1
       then total_balance r + a else total_balance r).
Proof.
  split.
  - destruct (buy_chips_from_bank_cases ctx a r)
      as [(-> & _ & _ & ->)|((-> & _) & k & Hk & ->)]; [done|].
    rewrite total_balance_with_delta by done. lia.
  - destruct (sell_chips_to_bank_cases ctx a r)
      as [(-> & _ & _ & ->)|((-> & _) & k & Hk & ->)]; [done|].
    by rewrite total_balance_with_delta.
Qed.

(** X4.  No chip operation creates, removes or renames anybody.  For every
    input, after each of the six chip operations the account table and the
    identity links are what they were, the set of user ids is the same, and
    every user has the display name it had. *)
Theorem chip_operations_keep_people (ctx : ExternalContext) (a : Z)
    (name s t : string) (r : Repos) :
  same_people r (buy_chips_from_bank ctx a r).2
  ∧ same_people r (sell_chips_to_bank ctx a r).2
  ∧ same_people r (buy_chips_from_user ctx a name r).2
  ∧ same_people r (sell_chips_to_user ctx a name r).2
  ∧ same_people r (initiate_buy_from_player ctx a r).2
  ∧ same_people r (confirm_buy_from_player s t a r).2.
Proof.
  split_and!.
  - destruct (buy_chips_from_bank_cases ctx a r)
      as [(_ & _ & _ & ->)|(_ & k & Hk & ->)];
      auto using same_people_refl, same_people_with_delta.
  - destruct (sell_chips_to_bank_cases ctx a r)
      as [(_ & _ & _ & ->)|(_ & k & Hk & ->)];
      auto using same_people_refl, same_people_with_delta.
  - destruct (buy_chips_from_user_cases ctx a name r)
      as [(_ & _ & _ & ->)|(_ & k1 & k2 & H1 & H2 & ->)];
      auto using same_people_refl, same_people_with_delta.
  - destruct (sell_chips_to_user_cases ctx a name r)
      as [(_ & _ & _ & ->)|(_ & k1 & k2 & H1 & H2 & ->)];
      auto using same_people_refl, same_people_with_delta.
  - replace (initiate_buy_from_player ctx a r).2 with r; [apply same_people_refl|].
    unfold initiate_buy_from_player, _validate_positive_amount.
    case_bool_decide; [done|].
    unfold bind, _get_logged_in_user, find_user_by_external, get_all_users.
    destruct (identities r !! _) as [k|]; [|done].
    destruct (users r !! k) as [row|]; [|done].
    cbn. by destruct (filter _ _).
  - destruct (confirm_buy_from_player_cases s t a r)
      as [(_ & _ & _ & ->)|(_ & k1 & k2 & H1 & H2 & ->)];
      auto using same_people_refl, same_people_with_delta.
Qed.

(** ** The remaining paths of the direct operations *)

(** X5.  For a positive amount [a], a caller logged in as [U] and a username
    whose account resolves to an existing user [V] other than [U],
    [sell_chips_to_user] succeeds, raises the balance of the caller [U] by
    exactly [a] and lowers the balance of [V] by exactly [a], changes no other
    row, and returns exactly two notifications, the first to [U] and the
    second to [V], both with the text "<name of U> sells <a> to <name of V>". *)
Theorem sell_chips_to_user_transfers (ctx : ExternalContext) (a : Z)
    (name : string) (r : Repos) (U : User) (arow : AccountRow) (vrow : UserRow) :
  0 < a →
  (_get_logged_in_user ctx r).1 = Some U →
  accounts r !! name = Some arow →
  users r !! row_account_id arow = Some vrow →
  u_id U ≠ row_account_id arow →
  let V := row_account_id arow in
  let res := (sell_chips_to_user ctx a name r).1 in
  let r' := (sell_chips_to_user ctx a name r).2 in
  let msg := first_name U +:+ " sells " +:+ str_int a +:+ " to " +:+ row_first_name vrow in
  success res = true
  ∧ error_message res = None
  ∧ balance_of r' (u_id U) = Some (balance U + a)
  ∧ balance_of r' V = Some (row_balance vrow - a)
  ∧ (∀ k, k ≠ u_id U → k ≠ V → users r' !! k = users r !! k)
  ∧ broadcasts res = [mkBroadcastMessage (u_id U) msg; mkBroadcastMessage V msg].
Proof.
  intros Hpos Hin Hacc Hrow Hne.
  destruct (logged_in_inv ctx r U Hin) as [Hid HU].
  rewrite (sell_chips_to_user_run ctx a name r U arow vrow Hpos Hin Hacc Hrow Hne).
  cbn [fst snd success error_message broadcasts ok].
  unfold balance_of, with_delta. cbn [users accounts identities].
  rewrite lookup_alter_eq, (lookup_alter_ne _ _ (row_account_id arow) (u_id U)) by done.
  rewrite (lookup_alter_ne _ _ (u_id U) (row_account_id arow)), lookup_alter_eq by done.
  rewrite HU, Hrow. cbn.
  split_and!; try done.
  intros k Hk1 Hk2. by rewrite !lookup_alter_ne.
Qed.

Lemma sell_chips_to_user_transfers_witness :
  balance_of (sell_chips_to_user alice_ctx 30 "bob" demo).2 "a1" = Some 130
  ∧ balance_of (sell_chips_to_user alice_ctx 30 "bob" demo).2 "b2" = Some 20
  ∧ broadcasts (sell_chips_to_user alice_ctx 30 "bob" demo).1
    = [mkBroadcastMessage "a1" "alice sells 30 to bob";
       mkBroadcastMessage "b2" "alice sells 30 to bob"].
Proof.
  pose proof (sell_chips_to_user_transfers alice_ctx 30 "bob" demo
                (mkUser "a1" "alice" "" 100) (mkAccountRow "b2" "")
                (mkUserRow "bob" "" 50)
                ltac:(lia) ltac:(reflexivity) ltac:(reflexivity)
                ltac:(reflexivity) ltac:(discriminate)) as H.
  cbv zeta in H. split; [apply H | split; apply H].
Defined.

Lemma not_logged_in_run (ctx : ExternalContext) (r : Repos) :
  (_get_logged_in_user ctx r).1 = None →
  _get_logged_in_user ctx r = (None, r).
Proof.
  unfold _get_logged_in_user, find_user_by_external. cbn. by intros ->.
Qed.

(** X6.  A caller that is not logged in is turned away before anything else
    is looked at.  For a positive amount, when [_get_logged_in_user] answers
    [None], the two bank operations, the two direct operations (whatever the
    counterparty username, known or not) and [initiate_buy_from_player] each
    fail with their own must-join message, no notification, and the
    repositories as they were. *)
Theorem not_logged_in_rejected (ctx : ExternalContext) (a : Z) (name : string)
    (r : Repos) :
  0 < a →
  (_get_logged_in_user ctx r).1 = None →
  buy_chips_from_bank ctx a r
  = (mkOperationResult false
       (Some "You must /join <username> <password> before buying chips.") [], r)
  ∧ sell_chips_to_bank ctx a r
    = (mkOperationResult false
         (Some "You must /join <username> <password> before selling chips.") [], r)
  ∧ buy_chips_from_user ctx a name r
    = (mkOperationResult false
         (Some "You must /join <username> <password> before buying from another player.")
         [], r)
  ∧ sell_chips_to_user ctx a name r
    = (mkOperationResult false
         (Some "You must /join <username> <password> before selling to another player.")
         [], r)
  ∧ initiate_buy_from_player ctx a r
    = (mkInitiateBuyFromResult false
         (Some "You must /join <username> <password> before buying from another player.")
         None [], r).
Proof.
  intros Hpos Hout.
  unfold buy_chips_from_bank, sell_chips_to_bank, buy_chips_from_user,
    sell_chips_to_user, initiate_buy_from_player.
  rewrite (validate_positive a Hpos). unfold bind.
  rewrite (not_logged_in_run ctx r Hout). by split_and!.
Qed.

Lemma not_logged_in_rejected_witness :
  buy_chips_from_user (mkExternalContext "discord" "9" "Bo" "") 5 "bob" demo
  = (mkOperationResult false
       (Some "You must /join <username> <password> before buying from another player.")
       [], demo).
Proof.
  apply (not_logged_in_rejected (mkExternalContext "discord" "9" "Bo" "") 5 "bob" demo);
    [lia | reflexivity].
Defined.

(** X7.  The counterparty must exist, as an account and as a user.  For a
    positive amount and a logged-in caller: when no account has the username,
    [buy_chips_from_user] fails with "Seller username not found." and
    [sell_chips_to_user] with "Buyer username not found."; when an account has
    it but no user has the account's id, they fail with "Seller user not
    found." and "Buyer user not found.".  In all four cases there is no
    notification and the repositories are as they were. *)
Theorem counterparty_not_found (ctx : ExternalContext) (a : Z) (name : string)
    (r : Repos) (U : User) :
  0 < a →
  (_get_logged_in_user ctx r).1 = Some U →
  (accounts r !! name = None →
   buy_chips_from_user ctx a name r
   = (mkOperationResult false (Some "Seller username not found.") [], r)
   ∧ sell_chips_to_user ctx a name r
     = (mkOperationResult false (Some "Buyer username not found.") [], r))
  ∧ (∀ arow, accounts r !! name = Some arow →
             users r !! row_account_id arow = None →
     buy_chips_from_user ctx a name r
     = (mkOperationResult false (Some "Seller user not found.") [], r)
     ∧ sell_chips_to_user ctx a name r
       = (mkOperationResult false (Some "Buyer user not found.") [], r)).
Proof.
  intros Hpos Hin.
  unfold buy_chips_from_user, sell_chips_to_user.
  rewrite (validate_positive a Hpos). unfold bind.
  rewrite (logged_in_run ctx r U Hin). split.
  - intros Hnone. unfold get_by_username. by rewrite Hnone.
  - intros arow Hacc Hnouser.
    rewrite (get_by_username_run name r arow Hacc).
    cbn [a_id account_of_row]. unfold get_user. by rewrite Hnouser.
Qed.

Lemma counterparty_not_found_witness :
  buy_chips_from_user alice_ctx 5 "zed" demo
  = (mkOperationResult false (Some "Seller username not found.") [], demo)
  ∧ sell_chips_to_user alice_ctx 5 "zed" demo
    = (mkOperationResult false (Some "Buyer username not found.") [], demo).
Proof.
  apply (counterparty_not_found alice_ctx 5 "zed" demo (mkUser "a1" "alice" "" 100));
    [lia | reflexivity | reflexivity].
Defined.

(** ** Joining, leaving and the caller's session *)

(** X8.  What a caller is after joining.  After [register_or_login_user] with
    a username that had no account, the caller resolves to the new user, with
    the username as display name and a balance of 0.  With a username that
    had an account, the caller resolves to the user of that account exactly as
    it was stored (same name, same balance), whatever account the caller was
    linked to before; and when the account has no user row the join still
    succeeds but the caller resolves to nobody. *)
Theorem join_then_resolve (ctx : ExternalContext) (name new_id : string) (r : Repos) :
  let r' := (register_or_login_user ctx name new_id r).2 in
  success (register_or_login_user ctx name new_id r).1 = true
  ∧ (accounts r !! name = None →
     (_get_logged_in_user ctx r').1 = Some (mkUser new_id name "" 0))
  ∧ (∀ arow row,
       accounts r !! name = Some arow →
       users r !! row_account_id arow = Some row →
       (_get_logged_in_user ctx r').1 = Some (user_of_row (row_account_id arow) row))
  ∧ (∀ arow,
       accounts r !! name = Some arow →
       users r !! row_account_id arow = None →
       (_get_logged_in_user ctx r').1 = None).
Proof.
  unfold register_or_login_user, bind, get_by_username, _get_logged_in_user,
    find_user_by_external.
  destruct (accounts r !! name) as [arow|] eqn:Hacc; cbn; split_and!; try done.
  - intros arow' row [= <-] Hrow. by rewrite lookup_insert_eq, Hrow.
  - intros arow' [= <-] Hrow. by rewrite lookup_insert_eq, Hrow.
  - intros _. by rewrite !lookup_insert_eq.
Qed.

Lemma join_then_resolve_witness :
  (_get_logged_in_user alice_ctx (register_or_login_user alice_ctx "dave" "d4" demo).2).1
  = Some (mkUser "d4" "dave" "" 0)
  ∧ (_get_logged_in_user alice_ctx (register_or_login_user alice_ctx "bob" "d4" demo).2).1
    = Some (mkUser "b2" "bob" "" 50).
Proof.
  split.
  - apply (join_then_resolve alice_ctx "dave" "d4" demo). reflexivity.
  - apply (proj1 (proj2 (proj2 (join_then_resolve alice_ctx "bob" "d4" demo)))
             (mkAccountRow "b2" "") (mkUserRow "bob" "" 50)); reflexivity.
Defined.

(** X9.  There is no floor under a balance.  A caller who joins under a
    username without account and at once buys a positive amount [a] from the
    bank is served: the purchase succeeds and the new user's balance is
    [- a]. *)
Theorem newcomer_can_go_into_debt (ctx : ExternalContext) (name new_id : string)
    (a : Z) (r : Repos) :
  0 < a →
  accounts r !! name = None →
  let joined := (register_or_login_user ctx name new_id r).2 in
  (buy_chips_from_bank ctx a joined).1
  = mkOperationResult true None
      [mkBroadcastMessage new_id (name +:+ " buys " +:+ str_int a)]
  ∧ balance_of (buy_chips_from_bank ctx a joined).2 new_id = Some (- a).
Proof.
  intros Hpos Hnew joined.
  assert (Hin : (_get_logged_in_user ctx joined).1 = Some (mkUser new_id name "" 0)).
  { subst joined.
    unfold register_or_login_user, bind, get_by_username, _get_logged_in_user,
      find_user_by_external.
    rewrite Hnew. cbn. by rewrite !lookup_insert_eq. }
  rewrite (buy_chips_from_bank_run ctx a joined _ Hpos Hin). cbn [fst snd u_id].
  split; [done|].
  rewrite balance_with_delta_eq.
  destruct (logged_in_inv ctx joined _ Hin) as [_ Hrow]. cbn in Hrow.
  unfold balance_of. by rewrite Hrow.
Qed.

Lemma newcomer_can_go_into_debt_witness :
  balance_of
    (buy_chips_from_bank alice_ctx 40
       (register_or_login_user alice_ctx "dave" "d4" demo).2).2 "d4"
  = Some (-40).
Proof.
  apply (newcomer_can_go_into_debt alice_ctx "dave" "d4" 40 demo); [lia | reflexivity].
Defined.

Lemma logged_in_with_delta_ne (ctx : ExternalContext) (k : string) (delta : Z)
    (r : Repos) (U : User) :
  k ≠ u_id U →
  (_get_logged_in_user ctx r).1 = Some U →
  (_get_logged_in_user ctx (with_delta k delta r)).1 = Some U.
Proof.
  intros Hne Hin. destruct (logged_in_inv ctx r U Hin) as [Hid Hrow].
  unfold _get_logged_in_user, find_user_by_external, with_delta. cbn.
  rewrite Hid, lookup_alter_ne, Hrow by done. by destruct U.
Qed.

(** X10.  One account, several channels.  When two contexts resolve to the
    same user, a purchase of a positive amount from the bank made through the
    first is seen through the second: it then resolves to the same user with
    the balance lowered by the amount.  And when the two contexts are
    different (provider, provider user id) pairs, a logout of the first leaves
    the second logged in as before. *)
Theorem one_account_several_channels (ctx1 ctx2 : ExternalContext) (a : Z)
    (r : Repos) (U : User) :
  0 < a →
  (_get_logged_in_user ctx1 r).1 = Some U →
  (_get_logged_in_user ctx2 r).1 = Some U →
  (_get_logged_in_user ctx2 (buy_chips_from_bank ctx1 a r).2).1
  = Some (mkUser (u_id U) (first_name U) (last_name U) (balance U - a))
  ∧ ((provider ctx1, provider_user_id ctx1) ≠ (provider ctx2, provider_user_id ctx2) →
     (_get_logged_in_user ctx2 (logout_external_identity ctx1 r).2).1 = Some U).
Proof.
  intros Hpos H1 H2. split.
  - rewrite (buy_chips_from_bank_run ctx1 a r U Hpos H1). cbn [snd].
    apply (logged_in_with_delta ctx2 (- a) r U H2).
  - intros Hne. destruct (logged_in_inv ctx2 r U H2) as [Hid Hrow].
    unfold logout_external_identity, bind, clear_external_identity,
      _get_logged_in_user, find_user_by_external. cbn.
    rewrite lookup_delete_ne, Hid, Hrow by done. by destruct U.
Qed.

Lemma one_account_several_channels_witness :
  let both := (register_or_login_user (mkExternalContext "discord" "9" "Al" "")
                 "alice" "x" demo).2 in
  (_get_logged_in_user (mkExternalContext "discord" "9" "Al" "")
     (buy_chips_from_bank alice_ctx 30 both).2).1
  = Some (mkUser "a1" "alice" "" 70).
Proof.
  apply (one_account_several_channels alice_ctx (mkExternalContext "discord" "9" "Al" "")
           30 _ (mkUser "a1" "alice" "" 100)); [lia | reflexivity | reflexivity].
Defined.

(** ** How the transfers compose *)

Lemma with_delta_merge (k : string) (a b : Z) (r : Repos) :
  with_delta k a (with_delta k b r) = with_delta k (b + a) r.
Proof.
  unfold with_delta. cbn [accounts users identities]. f_equal.
  apply map_eq. intros j. destruct (decide (k = j)) as [->|Hne].
  - rewrite !lookup_alter_eq. destruct (users r !! j); [|done].
    cbn. by rewrite add_delta_add_delta.
  - by rewrite !lookup_alter_ne.
Qed.

Lemma with_delta_0 (k : string) (r : Repos) : with_delta k 0 r = r.
Proof.
  unfold with_delta. rewrite <- (repos_eta r) at 4. f_equal.
  apply map_eq. intros j. destruct (decide (k = j)) as [->|Hne].
  - rewrite lookup_alter_eq. destruct (users r !! j); [|done].
    cbn. by rewrite add_delta_0.
  - by rewrite lookup_alter_ne.
Qed.

Lemma with_delta_comm (k1 k2 : string) (a b : Z) (r : Repos) :
  with_delta k1 a (with_delta k2 b r) = with_delta k2 b (with_delta k1 a r).
Proof.
  unfold with_delta. cbn [accounts users identities]. f_equal.
  apply map_eq. intros j.
  destruct (decide (k1 = j)) as [->|H1], (decide (k2 = j)) as [->|H2].
  - rewrite !lookup_alter_eq. destruct (users r !! j); [|done]. cbn.
    rewrite !add_delta_add_delta. do 2 f_equal. lia.
  - by rewrite lookup_alter_eq, !(lookup_alter_ne _ _ k2 j), lookup_alter_eq.
  - by rewrite lookup_alter_eq, !(lookup_alter_ne _ _ k1 j), lookup_alter_eq.
  - by rewrite !lookup_alter_ne.
Qed.

(** X11.  A purchase seen from the other side.  For two different logged-in
    users [U] and [V] and a positive amount, [U] buying from [V] by [V]'s
    username and [V] selling to [U] by [U]'s username leave the repositories
    in the same state; only the wording of the notification differs. *)
Theorem buy_is_sell_from_the_other_side (ctxU ctxV : ExternalContext) (a : Z)
    (nameU nameV : string) (r : Repos) (U V : User) (arowU arowV : AccountRow) :
  0 < a →
  (_get_logged_in_user ctxU r).1 = Some U →
  (_get_logged_in_user ctxV r).1 = Some V →
  accounts r !! nameU = Some arowU → row_account_id arowU = u_id U →
  accounts r !! nameV = Some arowV → row_account_id arowV = u_id V →
  u_id U ≠ u_id V →
  (buy_chips_from_user ctxU a nameV r).2 = (sell_chips_to_user ctxV a nameU r).2
  ∧ success (buy_chips_from_user ctxU a nameV r).1 = true
  ∧ success (sell_chips_to_user ctxV a nameU r).1 = true
  ∧ user_id <$> broadcasts (buy_chips_from_user ctxU a nameV r).1 = [u_id U; u_id V]
  ∧ user_id <$> broadcasts (sell_chips_to_user ctxV a nameU r).1 = [u_id V; u_id U].
Proof.
  intros Hpos HU HV HaU HidU HaV HidV Hne.
  destruct (logged_in_inv ctxU r U HU) as [_ HrowU].
  destruct (logged_in_inv ctxV r V HV) as [_ HrowV].
  rewrite <- HidU in HrowU. rewrite <- HidV in HrowV.
  rewrite (buy_chips_from_user_run ctxU a nameV r U arowV _ Hpos HU HaV HrowV)
    by congruence.
  rewrite (sell_chips_to_user_run ctxV a nameU r V arowU _ Hpos HV HaU HrowU)
    by congruence.
  cbn. rewrite HidU, HidV. done.
Qed.

Lemma buy_is_sell_from_the_other_side_witness :
  let both := (register_or_login_user (mkExternalContext "discord" "9" "Bo" "")
                 "bob" "x" demo).2 in
  (buy_chips_from_user alice_ctx 30 "bob" both).2
  = (sell_chips_to_user (mkExternalContext "discord" "9" "Bo" "") 30 "alice" both).2.
Proof.
  apply (buy_is_sell_from_the_other_side alice_ctx
           (mkExternalContext "discord" "9" "Bo" "") 30 "alice" "bob" _
           (mkUser "a1" "alice" "" 100) (mkUser "b2" "bob" "" 50)
           (mkAccountRow "a1" "") (mkAccountRow "b2" ""));
    [lia | reflexivity | reflexivity | reflexivity | reflexivity
     | reflexivity | reflexivity | discriminate].
Defined.

(** X12.  A purchase can be undone.  For a positive amount, after a caller
    has bought from another player, the same caller selling the same amount
    to the same player succeeds and gives back the repositories exactly as
    they were before the purchase. *)
Theorem sell_back_undoes_purchase (ctx : ExternalContext) (a : Z) (name : string)
    (r : Repos) (U : User) (arow : AccountRow) (vrow : UserRow) :
  0 < a →
  (_get_logged_in_user ctx r).1 = Some U →
  accounts r !! name = Some arow →
  users r !! row_account_id arow = Some vrow →
  u_id U ≠ row_account_id arow →
  success (sell_chips_to_user ctx a name (buy_chips_from_user ctx a name r).2).1 = true
  ∧ (sell_chips_to_user ctx a name (buy_chips_from_user ctx a name r).2).2 = r.
Proof.
  intros Hpos Hin Hacc Hrow Hne.
  rewrite (buy_chips_from_user_run ctx a name r U arow vrow Hpos Hin Hacc Hrow Hne).
  cbn [snd].
  pose proof (logged_in_with_delta ctx (- a) r U Hin) as Hin1.
  apply (logged_in_with_delta_ne ctx (row_account_id arow) a) in Hin1; [|by cbn].
  erewrite (sell_chips_to_user_run ctx a name _ _ arow (add_delta a vrow) Hpos Hin1).
  - cbn [fst snd success ok u_id]. split; [done|].
    rewrite (with_delta_merge (row_account_id arow)).
    replace (a + - a) with 0 by lia.
    by rewrite with_delta_0, with_delta_debit_credit.
  - done.
  - unfold with_delta. cbn [users].
    rewrite lookup_alter_eq, lookup_alter_ne, Hrow by done. done.
  - by cbn.
Qed.

Lemma sell_back_undoes_purchase_witness :
  (sell_chips_to_user alice_ctx 30 "bob" (buy_chips_from_user alice_ctx 30 "bob" demo).2).2
  = demo.
Proof.
  apply (sell_back_undoes_purchase alice_ctx 30 "bob" demo
           (mkUser "a1" "alice" "" 100) (mkAccountRow "b2" "") (mkUserRow "bob" "" 50));
    [lia | reflexivity | reflexivity | reflexivity | discriminate].
Defined.

Lemma elem_of_announce (msg : string) (r : Repos) (k : string) :
  mkBroadcastMessage k msg ∈ announce msg r ↔ is_Some (users r !! k).
Proof.
  unfold announce. rewrite list_elem_of_fmap. split.
  - intros [u [[= ->] Hu]]. apply elem_of_get_all_users in Hu. by eexists.
  - intros [row Hrow]. exists (user_of_row k row). split; [done|].
    apply elem_of_get_all_users. cbn. by destruct row.
Qed.

(** X13.  The confirmed transfer is the direct purchase made public.  For a
    positive amount, a caller logged in as [U] and a username resolving to
    another existing user [V], [confirm_buy_from_player] called with the ids
    of [U] and [V] leaves the repositories in the same state as
    [buy_chips_from_user] called by [U] with the username, and both
    notifications of the direct purchase are among the notifications of the
    confirmation. *)
Theorem confirm_is_public_direct_purchase (ctx : ExternalContext) (a : Z)
    (name : string) (r : Repos) (U : User) (arow : AccountRow) (vrow : UserRow) :
  0 < a →
  (_get_logged_in_user ctx r).1 = Some U →
  accounts r !! name = Some arow →
  users r !! row_account_id arow = Some vrow →
  u_id U ≠ row_account_id arow →
  (confirm_buy_from_player (u_id U) (row_account_id arow) a r).2
  = (buy_chips_from_user ctx a name r).2
  ∧ ∀ b, b ∈ broadcasts (buy_chips_from_user ctx a name r).1 →
         b ∈ broadcasts (confirm_buy_from_player (u_id U) (row_account_id arow) a r).1.
Proof.
  intros Hpos Hin Hacc Hrow Hne.
  destruct (logged_in_inv ctx r U Hin) as [_ HU].
  rewrite (buy_chips_from_user_run ctx a name r U arow vrow Hpos Hin Hacc Hrow Hne).
  rewrite (confirm_buy_from_player_run _ _ a r _ vrow Hpos HU Hrow).
  cbn [fst snd broadcasts ok row_first_name row_of_user]. split; [done|].
  intros b Hb. apply list_elem_of_In in Hb. cbn in Hb.
  destruct Hb as [<-|[<-|[]]]; apply elem_of_announce.
  - apply is_Some_with_delta, is_Some_with_delta. by eexists.
  - apply is_Some_with_delta, is_Some_with_delta. by eexists.
Qed.

Lemma confirm_is_public_direct_purchase_witness :
  (confirm_buy_from_player "a1" "b2" 30 demo).2
  = (buy_chips_from_user alice_ctx 30 "bob" demo).2.
Proof.
  apply (confirm_is_public_direct_purchase alice_ctx 30 "bob" demo
           (mkUser "a1" "alice" "" 100) (mkAccountRow "b2" "") (mkUserRow "bob" "" 50));
    [lia | reflexivity | reflexivity | reflexivity | discriminate].
Defined.

(** X14.  Every candidate can be confirmed.  For a positive amount and a
    caller logged in as [U], each candidate [V] returned by
    [initiate_buy_from_player] is a user other than [U], and
    [confirm_buy_from_player] with the ids of [U] and [V] then succeeds, takes
    exactly the amount from the balance of [U] and adds exactly the amount to
    the balance [V] was offered with. *)
Theorem candidates_can_be_confirmed (ctx : ExternalContext) (a : Z) (r : Repos)
    (U V : User) :
  0 < a →
  (_get_logged_in_user ctx r).1 = Some U →
  V ∈ candidates (initiate_buy_from_player ctx a r).1 →
  u_id V ≠ u_id U
  ∧ success (confirm_buy_from_player (u_id U) (u_id V) a r).1 = true
  ∧ balance_of (confirm_buy_from_player (u_id U) (u_id V) a r).2 (u_id U)
    = Some (balance U - a)
  ∧ balance_of (confirm_buy_from_player (u_id U) (u_id V) a r).2 (u_id V)
    = Some (balance V + a).
Proof.
  intros Hpos Hin HV.
  destruct (logged_in_inv ctx r U Hin) as [_ HU].
  rewrite (initiate_buy_from_player_run ctx a r U Hpos Hin) in HV. cbn [fst] in HV.
  assert (HV' : V ∈ filter (λ u, u_id u ≠ u_id U) (get_all_users r).1).
  { destruct (filter _ _); [by apply not_elem_of_nil in HV | done]. }
  apply list_elem_of_filter in HV' as [Hne HVrow].
  apply elem_of_get_all_users in HVrow.
  rewrite (confirm_buy_from_player_run _ _ a r _ _ Hpos HU HVrow).
  cbn [fst snd success ok]. split_and!; [done | done | |].
  - unfold balance_of, with_delta. cbn [users].
    rewrite lookup_alter_ne, lookup_alter_eq, HU by done. done.
  - unfold balance_of, with_delta. cbn [users].
    rewrite lookup_alter_eq, lookup_alter_ne, HVrow by done. done.
Qed.

Lemma candidates_can_be_confirmed_witness :
  balance_of (confirm_buy_from_player "a1" "b2" 10 demo).2 "b2" = Some 60.
Proof.
  apply (candidates_can_be_confirmed alice_ctx 10 demo
           (mkUser "a1" "alice" "" 100) (mkUser "b2" "bob" "" 50));
    [lia | reflexivity | vm_compute; repeat constructor].
Defined.

(** ** Joining twice, leaving twice, leaving and coming back *)

(** X15.  Joining is idempotent.  A second [register_or_login_user] by the
    same caller under the same username changes nothing any more, whatever
    identifier is drawn for it: it takes the login path, so no second account
    and no second user appear and no balance is reset. *)
Theorem join_twice_is_join_once (ctx : ExternalContext) (name id1 id2 : string)
    (r : Repos) :
  (register_or_login_user ctx name id2 (register_or_login_user ctx name id1 r).2).2
  = (register_or_login_user ctx name id1 r).2.
Proof.
  unfold register_or_login_user, bind, get_by_username.
  destruct (accounts r !! name) as [arow|] eqn:Hacc; cbn.
  - rewrite Hacc. cbn. by rewrite insert_insert_eq.
  - rewrite lookup_insert_eq. cbn. by rewrite insert_insert_eq.
Qed.

(** X16.  Leaving and coming back.  [logout_external_identity] twice is the
    same as once.  A caller linked to the account of a username who leaves
    and joins again under that username finds the repositories exactly as
    they were, balance included; and a caller without link who joins under a
    username that has an account and then leaves also gives the repositories
    back as they were. *)
Theorem leave_and_come_back (ctx : ExternalContext) (name new_id : string)
    (r : Repos) (arow : AccountRow) :
  accounts r !! name = Some arow →
  (logout_external_identity ctx (logout_external_identity ctx r).2).2
  = (logout_external_identity ctx r).2
  ∧ (identities r !! (provider ctx, provider_user_id ctx) = Some (row_account_id arow) →
     (register_or_login_user ctx name new_id (logout_external_identity ctx r).2).2 = r)
  ∧ (identities r !! (provider ctx, provider_user_id ctx) = None →
     (logout_external_identity ctx (register_or_login_user ctx name new_id r).2).2 = r).
Proof.
  intros Hacc.
  unfold register_or_login_user, logout_external_identity, bind, get_by_username,
    clear_external_identity.
  cbn. rewrite Hacc. cbn. split_and!.
  - f_equal. by rewrite delete_delete_eq.
  - intros Hlink. rewrite insert_delete_eq, insert_id by done. apply repos_eta.
  - intros Hnolink. rewrite delete_insert_eq, delete_id by done. apply repos_eta.
Qed.

Lemma leave_and_come_back_witness :
  (register_or_login_user alice_ctx "alice" "x" (logout_external_identity alice_ctx demo).2).2
  = demo.
Proof.
  apply (leave_and_come_back alice_ctx "alice" "x" demo (mkAccountRow "a1" ""));
    reflexivity.
Defined.

(** X17.  Sessions do not interfere.  For two contexts that are different
    (provider, provider user id) pairs, whom the first resolves to is not
    changed when the second logs out, nor when the second joins under a
    username that has an account; and a first caller who is logged in stays
    logged in as the same user when the second joins under a new username
    with an identifier that is not yet a user id. *)
Theorem sessions_do_not_interfere (ctx other : ExternalContext)
    (name new_id : string) (r : Repos) :
  (provider other, provider_user_id other) ≠ (provider ctx, provider_user_id ctx) →
  (_get_logged_in_user ctx (logout_external_identity other r).2).1
  = (_get_logged_in_user ctx r).1
  ∧ (is_Some (accounts r !! name) →
     (_get_logged_in_user ctx (register_or_login_user other name new_id r).2).1
     = (_get_logged_in_user ctx r).1)
  ∧ (∀ U, users r !! new_id = None →
          (_get_logged_in_user ctx r).1 = Some U →
          (_get_logged_in_user ctx (register_or_login_user other name new_id r).2).1
          = Some U).
Proof.
  intros Hne. split_and!.
  - unfold logout_external_identity, bind, clear_external_identity,
      _get_logged_in_user, find_user_by_external.
    cbn. by rewrite lookup_delete_ne.
  - intros [arow Hacc].
    unfold register_or_login_user, bind, get_by_username,
      _get_logged_in_user, find_user_by_external.
    rewrite Hacc. cbn. by rewrite lookup_insert_ne.
  - intros U Hfresh Hin. destruct (logged_in_inv ctx r U Hin) as [Hid Hrow].
    unfold register_or_login_user, bind, get_by_username,
      _get_logged_in_user, find_user_by_external.
    destruct (accounts r !! name) as [arow|] eqn:Hacc; cbn.
    + rewrite lookup_insert_ne, Hid, Hrow by done. by destruct U.
    + rewrite lookup_insert_ne, Hid by done.
      rewrite lookup_insert_ne, Hrow by congruence. by destruct U.
Qed.

Lemma sessions_do_not_interfere_witness :
  (_get_logged_in_user alice_ctx
     (register_or_login_user (mkExternalContext "discord" "9" "Bo" "") "bob" "x" demo).2).1
  = Some (mkUser "a1" "alice" "" 100)
  ∧ (_get_logged_in_user alice_ctx
       (register_or_login_user (mkExternalContext "discord" "9" "Da" "") "dave" "d4" demo).2).1
    = Some (mkUser "a1" "alice" "" 100).
Proof.
  split.
  - refine (proj1 (proj2 (sessions_do_not_interfere alice_ctx
                     (mkExternalContext "discord" "9" "Bo" "") "bob" "x" demo _)) _).
    + discriminate.
    + by eexists.
  - refine (proj2 (proj2 (sessions_do_not_interfere alice_ctx
                     (mkExternalContext "discord" "9" "Da" "") "dave" "d4" demo _))
              _ _ _); [discriminate | reflexivity | reflexivity].
Defined.

(** ** Independent operations *)

Lemma logged_in_with_delta_any (ctx : ExternalContext) (k : string) (delta : Z)
    (r : Repos) (U : User) :
  (_get_logged_in_user ctx r).1 = Some U →
  ∃ U', (_get_logged_in_user ctx (with_delta k delta r)).1 = Some U'
        ∧ u_id U' = u_id U ∧ first_name U' = first_name U.
Proof.
  intros Hin. destruct (decide (k = u_id U)) as [->|Hne].
  - eexists. split; [by apply logged_in_with_delta|done].
  - exists U. split; [by apply logged_in_with_delta_ne|done].
Qed.

(** X18.  Bank operations of logged-in callers commute.  For positive amounts
    and two logged-in callers (two users, or one user through one or two
    contexts), a purchase by the first followed by a sale by the second gives
    the same repositories and the same notifications as the sale followed by
    the purchase. *)
Theorem bank_operations_commute (ctx1 ctx2 : ExternalContext) (a b : Z)
    (r : Repos) (U1 U2 : User) :
  0 < a → 0 < b →
  (_get_logged_in_user ctx1 r).1 = Some U1 →
  (_get_logged_in_user ctx2 r).1 = Some U2 →
  (sell_chips_to_bank ctx2 b (buy_chips_from_bank ctx1 a r).2).2
  = (buy_chips_from_bank ctx1 a (sell_chips_to_bank ctx2 b r).2).2
  ∧ (sell_chips_to_bank ctx2 b (buy_chips_from_bank ctx1 a r).2).1
    = (sell_chips_to_bank ctx2 b r).1
  ∧ (buy_chips_from_bank ctx1 a (sell_chips_to_bank ctx2 b r).2).1
    = (buy_chips_from_bank ctx1 a r).1.
Proof.
  intros Ha Hb H1 H2.
  rewrite (buy_chips_from_bank_run ctx1 a r U1 Ha H1).
  rewrite (sell_chips_to_bank_run ctx2 b r U2 Hb H2). cbn [fst snd].
  destruct (logged_in_with_delta_any ctx2 (u_id U1) (- a) r U2 H2)
    as (U2' & H2' & Hid2 & Hn2).
  destruct (logged_in_with_delta_any ctx1 (u_id U2) b r U1 H1)
    as (U1' & H1' & Hid1 & Hn1).
  rewrite (sell_chips_to_bank_run ctx2 b _ U2' Hb H2').
  rewrite (buy_chips_from_bank_run ctx1 a _ U1' Ha H1').
  cbn [fst snd]. rewrite Hid1, Hid2, Hn1, Hn2.
  split; [apply with_delta_comm | done].
Qed.

Lemma bank_operations_commute_witness :
  (sell_chips_to_bank alice_ctx 5 (buy_chips_from_bank alice_ctx 30 demo).2).2
  = (buy_chips_from_bank alice_ctx 30 (sell_chips_to_bank alice_ctx 5 demo).2).2.
Proof.
  apply (bank_operations_commute alice_ctx alice_ctx 30 5 demo
           (mkUser "a1" "alice" "" 100) (mkUser "a1" "alice" "" 100));
    [lia | lia | reflexivity | reflexivity].
Defined.

(** ** The caller's context *)

(** X19.  The services read nothing of a context but its provider and its
    provider user id: two contexts that agree on these two fields get the same
    result and the same repositories from every service, whatever first and
    last name they carry.  In particular the name of a newly registered user
    is the username, never the name of the context. *)
Theorem context_names_are_ignored (ctx ctx' : ExternalContext) (a : Z)
    (name new_id : string) (r : Repos) :
  provider ctx = provider ctx' →
  provider_user_id ctx = provider_user_id ctx' →
  _get_logged_in_user ctx r = _get_logged_in_user ctx' r
  ∧ register_or_login_user ctx name new_id r = register_or_login_user ctx' name new_id r
  ∧ logout_external_identity ctx r = logout_external_identity ctx' r
  ∧ buy_chips_from_bank ctx a r = buy_chips_from_bank ctx' a r
  ∧ sell_chips_to_bank ctx a r = sell_chips_to_bank ctx' a r
  ∧ buy_chips_from_user ctx a name r = buy_chips_from_user ctx' a name r
  ∧ sell_chips_to_user ctx a name r = sell_chips_to_user ctx' a name r
  ∧ initiate_buy_from_player ctx a r = initiate_buy_from_player ctx' a r.
Proof.
  intros Hp He.
  unfold register_or_login_user, logout_external_identity, buy_chips_from_bank,
    sell_chips_to_bank, buy_chips_from_user, sell_chips_to_user,
    initiate_buy_from_player, _get_logged_in_user.
  rewrite Hp, He. by split_and!.
Qed.

Lemma context_names_are_ignored_witness :
  buy_chips_from_bank (mkExternalContext "telegram" "7" "Alice" "Liddell") 30 demo
  = buy_chips_from_bank alice_ctx 30 demo.
Proof.
  apply (context_names_are_ignored (mkExternalContext "telegram" "7" "Alice" "Liddell")
           alice_ctx 30 "bob" "x" demo); reflexivity.
Defined.

(** X20.  The context built by an adapter identifies the platform user.  A
    Telegram context and a Discord context never have the same (provider,
    provider user id) pair, even for the same numeric id; two Telegram users
    have the same pair exactly when they have the same id, and so have two
    Discord users. *)
Theorem external_context_identifies_user (t t' : Telegram.from_user)
    (d d' : Discord.user) :
  let key := λ c, (provider c, provider_user_id c) in
  key (Telegram._build_external_context t) ≠ key (Discord._build_external_context d)
  ∧ (key (Telegram._build_external_context t) = key (Telegram._build_external_context t')
     ↔ Telegram.id t = Telegram.id t')
  ∧ (key (Discord._build_external_context d) = key (Discord._build_external_context d')
     ↔ Discord.id d = Discord.id d').
Proof.
  cbn. split_and!.
  - discriminate.
  - split; [|by intros ->]. intros [= H]. by apply (inj pretty) in H.
  - split; [|by intros ->]. intros [= H]. by apply (inj pretty) in H.
Qed.

(** ** What the Discord commands answer *)

(** The service a Discord command calls. *)
Lemma buy_cmd_run (author : Discord.user) (a : Z) (username : option string)
    (r : Repos) (res : OperationResult) (r' : Repos) :
  match username with
  | None => buy_chips_from_bank (Discord._build_external_context author) a
  | Some u => buy_chips_from_user (Discord._build_external_context author) a u
  end r = (res, r') →
  Discord.buy_cmd author a username r
  = (if negb (success res) then py_or (error_message res) "Buy failed."
     else match broadcasts res with b :: _ => text b | [] => "Buy completed." end,
     r').
Proof.
  intros Hrun. unfold Discord.buy_cmd, bind. cbv zeta. rewrite Hrun.
  by destruct (success res).
Qed.

Lemma sell_cmd_run (author : Discord.user) (a : Z) (username : option string)
    (r : Repos) (res : OperationResult) (r' : Repos) :
  match username with
  | None => sell_chips_to_bank (Discord._build_external_context author) a
  | Some u => sell_chips_to_user (Discord._build_external_context author) a u
  end r = (res, r') →
  Discord.sell_cmd author a username r
  = (if negb (success res) then py_or (error_message res) "Sell failed."
     else match broadcasts res with b :: _ => text b | [] => "Sell completed." end,
     r').
Proof.
  intros Hrun. unfold Discord.sell_cmd, bind. cbv zeta. rewrite Hrun.
  by destruct (success res).
Qed.

Lemma py_or_nonempty (msg default : string) :
  msg ≠ "" → py_or (Some msg) default = msg.
Proof. intros Hne. unfold py_or. by rewrite bool_decide_eq_false_2. Qed.

(** The answer computed from an outcome that is a refusal or an acceptance is
    the error message or the text of the first notification. *)
Lemma answer_of_outcome (x : OperationResult * Repos) (r : Repos)
    (failed completed : string) :
  refused x r ∨ accepted x →
  let answer :=
    if negb (success x.1) then py_or (error_message x.1) failed
    else match broadcasts x.1 with b :: _ => text b | [] => completed end in
  (success x.1 = false ∧ error_message x.1 = Some answer ∧ answer ≠ "")
  ∨ (success x.1 = true ∧ ∃ b rest, broadcasts x.1 = b :: rest ∧ text b = answer).
Proof.
  intros [(Hs & (msg & Hmsg & Hne) & _ & _)|(Hs & _ & Hb)]; cbv zeta; rewrite Hs; cbn.
  - left. rewrite Hmsg, py_or_nonempty by done. done.
  - right. split; [done|]. destruct (broadcasts x.1) as [|b rest]; [done|]. eauto.
Qed.

(** X21.  The Discord commands always answer with what the service said.  For
    every author, amount and optional username, [buy_cmd] and [sell_cmd] leave
    the repositories exactly as the chip operation they call does, and the
    text they send is, when the operation failed, its non-empty error message,
    and when it succeeded, the text of its first notification.  The fallback
    texts "Buy failed.", "Buy completed.", "Sell failed." and "Sell
    completed." are never what decides the answer. *)
Theorem discord_commands_answer (author : Discord.user) (a : Z)
    (username : option string) (r : Repos) :
  let ctx := Discord._build_external_context author in
  let bought :=
    match username with
    | None => buy_chips_from_bank ctx a
    | Some u => buy_chips_from_user ctx a u
    end r in
  let sold :=
    match username with
    | None => sell_chips_to_bank ctx a
    | Some u => sell_chips_to_user ctx a u
    end r in
  (Discord.buy_cmd author a username r).2 = bought.2
  ∧ ((success bought.1 = false
      ∧ error_message bought.1 = Some (Discord.buy_cmd author a username r).1
      ∧ (Discord.buy_cmd author a username r).1 ≠ "")
     ∨ (success bought.1 = true
        ∧ ∃ b rest, broadcasts bought.1 = b :: rest
                    ∧ text b = (Discord.buy_cmd author a username r).1))
  ∧ (Discord.sell_cmd author a username r).2 = sold.2
  ∧ ((success sold.1 = false
      ∧ error_message sold.1 = Some (Discord.sell_cmd author a username r).1
      ∧ (Discord.sell_cmd author a username r).1 ≠ "")
     ∨ (success sold.1 = true
        ∧ ∃ b rest, broadcasts sold.1 = b :: rest
                    ∧ text b = (Discord.sell_cmd author a username r).1)).
Proof.
  intros ctx bought sold.
  rewrite (buy_cmd_run author a username r bought.1 bought.2) by apply surjective_pairing.
  rewrite (sell_cmd_run author a username r sold.1 sold.2) by apply surjective_pairing.
  cbn [fst snd]. split_and!; [done | | done |].
  - apply (answer_of_outcome bought r). subst bought. destruct username as [u|].
    + destruct (buy_chips_from_user_cases ctx a u r) as [?|[? _]]; auto.
    + destruct (buy_chips_from_bank_cases ctx a r) as [?|[? _]]; auto.
  - apply (answer_of_outcome sold r). subst sold. destruct username as [u|].
    + destruct (sell_chips_to_user_cases ctx a u r) as [?|[? _]]; auto.
    + destruct (sell_chips_to_bank_cases ctx a r) as [?|[? _]]; auto.
Qed.
